(** * Debate sign-up schedule: submission store and reveal gating

    A shallow embedding of [debate.py] and the proofs of its stated
    properties.

    Modelling conventions.
    - A Python [str] is a Rocq [string]; a character is a code point
      below 256 (the Latin-1 range), on which [str.strip], [str.split],
      [str.lower] and [int] are modelled exactly.
    - A Python value stored in a row dictionary is a [value]: [None], a
      [str] or an [int].
    - The dictionary of a CSV row is a [dict]: a [gmap string value]
      for the entries under the column names, and the entry that
      [csv.DictReader] files under the key [None] for a record longer
      than the header.
    - A CSV file is the list of its records, each a list of fields: the
      text level ([csv.writer] quoting, line terminators, the encoding)
      is below the model, [csv.reader] giving back the records that
      [csv.writer] wrote.
    - The file system is a [gmap] from paths to files; a function that
      reads or writes files takes the file system and returns the new
      one.
    - An exception is a result [Raise e]; [datetime.now] is an argument.
    - The calls are sequential: [file_lock] makes each access to the
      submissions file atomic, and one call is one step of the model.
    - The integer text limit of recent CPython versions (4300 digits)
      and the locale (month names are the English ones) are not
      modelled. *)

From Stdlib Require Import ZArith NArith List String Ascii Bool Lia.
From Stdlib Require Import Decimal DecimalString DecimalPos DecimalN DecimalZ.
From stdpp Require Import base option list gmap strings fin_maps.

Local Open Scope string_scope.
Local Open Scope list_scope.
Local Open Scope Z_scope.

(** ** Python runtime: exceptions *)

Inductive exn : Type :=
  | KeyError
  | ValueError
  | TypeError
  | IndexError
  | AttributeError
  | StopException.

Inductive result (A : Type) : Type :=
  | Ok (a : A)
  | Raise (e : exn).

Arguments Ok {A} a.
Arguments Raise {A} e.

#[global] Instance result_ret : MRet result := fun A a => Ok a.
#[global] Instance result_bind : MBind result := fun A B f m =>
  match m with
  | Ok a => f a
  | Raise e => Raise e
  end.

Definition is_ok {A} (r : result A) : bool :=
  match r with Ok _ => true | Raise _ => false end.

(** ** Python runtime: values *)

Inductive value : Type :=
  | VNone
  | VStr (s : string)
  | VInt (z : Z).

#[global] Instance value_eq_dec : EqDecision value.
Proof. solve_decision. Defined.

(** [bool(v)] for the values that occur: [None], [''] and [0] are false. *)
Definition truthy (v : value) : bool :=
  match v with
  | VNone => false
  | VStr s => negb (String.eqb s "")
  | VInt z => negb (z =? 0)
  end.

(** [a == b]: values of different types are unequal. *)
Definition py_eq (a b : value) : bool := bool_decide (a = b).

Module Py.

(** *** Characters (code points below 256) *)

Definition code (c : ascii) : N := N_of_ascii c.

Definition between (lo hi n : N) : bool := ((lo <=? n) && (n <=? hi))%N.

(** [str.isspace] on one character: TAB..CR, FS..US, SPACE, NEL, NBSP. *)
Definition isspace (c : ascii) : bool :=
  between 9 13 (code c) || between 28 32 (code c)
  || (code c =? 133)%N || (code c =? 160)%N.

Definition isdigit (c : ascii) : bool := between 48 57 (code c).

(** [str.lower] on one character: A..Z and the Latin-1 capitals
    (U+00C0..U+00DE without the multiplication sign U+00D7). *)
Definition lower_char (c : ascii) : ascii :=
  if between 65 90 (code c)
     || (between 192 222 (code c) && negb (code c =? 215)%N)
  then ascii_of_N (code c + 32)
  else c.

(** *** [str] methods *)

Fixpoint lower (s : string) : string :=
  match s with
  | EmptyString => EmptyString
  | String c r => String (lower_char c) (lower r)
  end.

Fixpoint lstrip (s : string) : string :=
  match s with
  | EmptyString => EmptyString
  | String c r => if isspace c then lstrip r else s
  end.

Fixpoint rstrip (s : string) : string :=
  match s with
  | EmptyString => EmptyString
  | String c r =>
      match rstrip r with
      | EmptyString => if isspace c then EmptyString else String c EmptyString
      | r' => String c r'
      end
  end.

Definition strip (s : string) : string := rstrip (lstrip s).

(** [s.split()]: the maximal runs of non-space characters. [cur] is the
    run being read. *)
Fixpoint split_go (cur : string) (s : string) : list string :=
  match s with
  | EmptyString => if String.eqb cur "" then [] else [cur]
  | String c r =>
      if isspace c
      then (if String.eqb cur "" then split_go "" r else cur :: split_go "" r)
      else split_go (cur +:+ String c EmptyString) r
  end.

Definition split (s : string) : list string := split_go "" s.

(** [sep.join(l)] *)
Fixpoint join (sep : string) (l : list string) : string :=
  match l with
  | [] => ""
  | [w] => w
  | w :: r => w +:+ sep +:+ join sep r
  end.

(** *** [int] and [str] on integers *)

(** The digits of an integer literal: decimal digits, with single
    underscores allowed between two digits. [after_digit] tells whether
    the previous character was a digit. *)
Fixpoint literal_digits (after_digit : bool) (s : string) : option string :=
  match s with
  | EmptyString => if after_digit then Some EmptyString else None
  | String c r =>
      if isdigit c then String c <$> literal_digits true r
      else if Ascii.eqb c "_" && after_digit then literal_digits false r
      else None
  end.

Definition nat_of_literal (s : string) : option Z :=
  d ← literal_digits false s;
  u ← NilEmpty.uint_of_string d;
  Some (Z.of_N (N.of_uint u)).

(** The whitespace that [int] skips around a literal: that of
    [str.isspace] without the separators FS..US (U+001C..U+001F), which
    [int] does not skip. *)
Definition int_space (c : ascii) : bool :=
  between 9 13 (code c) || (code c =? 32)%N
  || (code c =? 133)%N || (code c =? 160)%N.

(** The text without its leading, and without its trailing, characters
    that satisfy [p]. *)
Fixpoint lskip (p : ascii -> bool) (s : string) : string :=
  match s with
  | EmptyString => EmptyString
  | String c r => if p c then lskip p r else s
  end.

Fixpoint rskip (p : ascii -> bool) (s : string) : string :=
  match s with
  | EmptyString => EmptyString
  | String c r =>
      match rskip p r with
      | EmptyString => if p c then EmptyString else String c EmptyString
      | r' => String c r'
      end
  end.

(** [int(s)] for a [str]: surrounding whitespace, an optional sign, a
    literal. *)
Definition int_of_str (s : string) : result Z :=
  let body :=
    match rskip int_space (lskip int_space s) with
    | String "+" r => nat_of_literal r
    | String "-" r => Z.opp <$> nat_of_literal r
    | r => nat_of_literal r
    end in
  match body with
  | Some z => Ok z
  | None => Raise ValueError
  end.

(** [int(v)] *)
Definition int (v : value) : result Z :=
  match v with
  | VInt z => Ok z
  | VStr s => int_of_str s
  | VNone => Raise TypeError
  end.

(** [str(z)] for an [int] *)
Definition str_of_int (z : Z) : string := NilZero.string_of_int (Z.to_int z).

End Py.

(** ** Python runtime: [datetime] *)

Module DT.

(** A naive [datetime]: calendar fields without a time zone. *)
Record naive : Type := mkNaive {
  year : Z; month : Z; day : Z;
  hour : Z; minute : Z; second : Z; microsecond : Z
}.

(** An aware [datetime]: local calendar fields and the offset from UTC,
    in seconds (east positive), that its [tzinfo] gives them. *)
Record aware : Type := mkAware {
  local : naive;
  utcoffset : Z
}.

Definition is_leap (y : Z) : bool :=
  (y mod 4 =? 0) && (negb (y mod 100 =? 0) || (y mod 400 =? 0)).

Definition days_in_month (y m : Z) : Z :=
  if (m =? 2) && is_leap y then 29
  else nth (Z.to_nat m) [-1; 31; 28; 31; 30; 31; 30; 31; 31; 30; 31; 30; 31] (-1).

Definition days_before_year (y : Z) : Z :=
  let p := y - 1 in p * 365 + p / 4 - p / 100 + p / 400.

Definition days_before_month (y m : Z) : Z :=
  nth (Z.to_nat m) [-1; 0; 31; 59; 90; 120; 151; 181; 212; 243; 273; 304; 334] (-1)
  + (if (2 <? m) && is_leap y then 1 else 0).

Definition toordinal (d : naive) : Z :=
  days_before_year (year d) + days_before_month (year d) (month d) + day d.

(** The instant of an aware datetime, in microseconds: what the
    comparison of two aware datetimes compares. *)
Definition instant (d : aware) : Z :=
  ((toordinal (local d) * 86400
    + hour (local d) * 3600 + minute (local d) * 60 + second (local d)
    - utcoffset d) * 1000000) + microsecond (local d).

(** [a < b] on aware datetimes *)
Definition lt (a b : aware) : bool := instant a <? instant b.

(** [date(y, m, d)] accepts the triple *)
Definition valid_date (y m d : Z) : bool :=
  (1 <=? y) && (y <=? 9999) && (1 <=? m) && (m <=? 12)
  && (1 <=? d) && (d <=? days_in_month y m).

Definition month_abbr : list string :=
  ["Jan"; "Feb"; "Mar"; "Apr"; "May"; "Jun";
   "Jul"; "Aug"; "Sep"; "Oct"; "Nov"; "Dec"].

Definition two_digits (n : Z) : string :=
  if n <? 10 then "0" +:+ Py.str_of_int n else Py.str_of_int n.

(** [d.strftime('%b %d')] *)
Definition strftime_b_d (d : naive) : string :=
  nth (Z.to_nat (month d - 1)) month_abbr "" +:+ " " +:+ two_digits (day d).

(** *** The regular expressions of [strptime]

    A pattern is a function from the text to the list of its matches
    at the start of the text, each with the text that remains, in the
    order in which a backtracking matcher tries them. *)

Definition pattern (A : Type) : Type := string -> list (A * string).

Definition digit_value (c : ascii) : Z := Z.of_N (Py.code c) - 48.

Definition char_in (lo hi : ascii) (c : ascii) : bool :=
  Py.between (Py.code lo) (Py.code hi) (Py.code c).

(** one character satisfying [p], with its digit value *)
Definition one (p : ascii -> bool) : pattern Z := fun s =>
  match s with
  | String c r => if p c then [(digit_value c, r)] else []
  | EmptyString => []
  end.

(** a first character satisfying [p] and a second satisfying [q] *)
Definition two (p q : ascii -> bool) : pattern Z := fun s =>
  match s with
  | String c (String d r) =>
      if p c && q d then [(10 * digit_value c + digit_value d, r)] else []
  | _ => []
  end.

(** the literal character [c] *)
Definition lit (c : ascii) : pattern unit := fun s =>
  match s with
  | String d r => if Ascii.eqb c d then [(tt, r)] else []
  | EmptyString => []
  end.

(** [p1|p2] *)
Definition alt {A} (p1 p2 : pattern A) : pattern A := fun s => p1 s ++ p2 s.

(** [p] then [q] *)
Definition seq {A B} (p : pattern A) (q : pattern B) : pattern (A * B) := fun s =>
  '(a, r) ← p s; '(b, r') ← q r; [((a, b), r')].

(** [%Y]: [\d\d\d\d] *)
Definition re_Y : pattern Z := fun s =>
  '(hi, r) ← two Py.isdigit Py.isdigit s;
  '(lo, r') ← two Py.isdigit Py.isdigit r;
  [(100 * hi + lo, r')].

(** [%m]: [1[0-2]|0[1-9]|[1-9]] *)
Definition re_m : pattern Z :=
  alt (two (Ascii.eqb "1") (char_in "0" "2"))
 (alt (two (Ascii.eqb "0") (char_in "1" "9"))
      (one (char_in "1" "9"))).

(** [%d]: [3[0-1]|[1-2]\d|0[1-9]|[1-9]| [1-9]] *)
Definition re_d : pattern Z :=
  alt (two (Ascii.eqb "3") (char_in "0" "1"))
 (alt (two (char_in "1" "2") Py.isdigit)
 (alt (two (Ascii.eqb "0") (char_in "1" "9"))
 (alt (one (char_in "1" "9"))
      (fun s => '(_, r) ← lit " " s; one (char_in "1" "9") r)))).

(** [\s+], the longest run first *)
Fixpoint re_spaces (s : string) : list (unit * string) :=
  match s with
  | String c r => if Py.isspace c then re_spaces r ++ [(tt, r)] else []
  | EmptyString => []
  end.

(** [%b]: the lower-cased month abbreviations, letter case ignored; the
    value is the month number *)
Definition re_b : pattern Z := fun s =>
  match s with
  | String a (String b (String c r)) =>
      let w := Py.lower (String a (String b (String c EmptyString))) in
      '(i, name) ← imap (fun i n => (Z.of_nat i + 1, Py.lower n)) month_abbr;
      if String.eqb w name then [(i, r)] else []
  | _ => []
  end.

(** [re.match] and the check that no text remains: the first match in
    backtracking order must end at the end of the text. *)
Definition full_match {A} (p : pattern A) (s : string) : result A :=
  match p s with
  | (a, EmptyString) :: _ => Ok a
  | _ => Raise ValueError
  end.

Definition midnight (y m d : Z) : naive := mkNaive y m d 0 0 0 0.

(** [datetime.strptime(s, '%Y-%m-%d')] *)
Definition strptime_Y_m_d (s : string) : result naive :=
  '(y, _, m, _, d) ← full_match (seq (seq (seq (seq re_Y (lit "-")) re_m) (lit "-")) re_d) s;
  if valid_date y m d then Ok (midnight y m d) else Raise ValueError.

(** [datetime.strptime(s, '%b %d')]: the year is 1900 *)
Definition strptime_b_d (s : string) : result naive :=
  '(m, _, d) ← full_match (seq (seq re_b re_spaces) re_d) s;
  if valid_date 1900 m d then Ok (midnight 1900 m d) else Raise ValueError.

End DT.

(** ** Python runtime: row dictionaries and [csv] *)

(** The dictionary of one CSV row. [cells] holds the entries under the
    column names; [overflow] is the entry that [csv.DictReader] files
    under its [restkey] (the key [None]) when a record has more fields
    than the header. *)
Record dict : Type := mkDict {
  cells : gmap string value;
  overflow : option (list string)
}.

(** [d[k]] *)
Definition getitem (d : dict) (k : string) : result value :=
  match cells d !! k with
  | Some v => Ok v
  | None => Raise KeyError
  end.

(** [d.get(k, dflt)]; [d.get(k)] is [get d k VNone] *)
Definition get (d : dict) (k : string) (dflt : value) : value :=
  default dflt (cells d !! k).

(** [d[k] = v] *)
Definition setitem (d : dict) (k : string) (v : value) : dict :=
  mkDict (<[k := v]> (cells d)) (overflow d).

(** [bool(d)]: a dictionary is true when it has an entry *)
Definition dict_truthy (d : dict) : bool :=
  negb (bool_decide (cells d = ∅)) || bool_decide (is_Some (overflow d)).

Module Csv.

(** A file as [csv.reader] sees it: its records, a blank line being
    the record without fields. *)
Abbreviation file := (list (list string)).

(** [dict(zip(fieldnames, row))], then [restval] ([None]) for the
    names that have no field: a later entry replaces an earlier one of
    the same name. *)
Fixpoint zip_cells (fieldnames row : list string) (d : gmap string value)
  : gmap string value :=
  match fieldnames with
  | [] => d
  | n :: ns =>
      match row with
      | f :: fs => zip_cells ns fs (<[n := VStr f]> d)
      | [] => zip_cells ns [] (<[n := VNone]> d)
      end
  end.

Definition read_row (fieldnames row : list string) : dict :=
  mkDict (zip_cells fieldnames row ∅)
         (if (length fieldnames <? length row)%nat
          then Some (drop (length fieldnames) row) else None).

Definition blank (row : list string) : bool :=
  match row with [] => true | _ => false end.

(** [list(csv.DictReader(f))]: the first record gives the field names,
    blank records after it are skipped. *)
Definition DictReader (f : file) : list dict :=
  match f with
  | [] => []
  | fieldnames :: rows =>
      read_row fieldnames <$> List.filter (fun r => negb (blank r)) rows
  end.

(** The text [csv.writer] writes for a value. *)
Definition field_text (v : value) : string :=
  match v with
  | VNone => ""
  | VStr s => s
  | VInt z => Py.str_of_int z
  end.

(** [DictWriter._dict_to_list]: a key that is not a field name raises
    [ValueError]; a missing name is written as the empty [restval]. *)
Definition dict_to_list (fieldnames : list string) (d : dict)
  : result (list string) :=
  if bool_decide (is_Some (overflow d))
     || negb (forallb (fun k => bool_decide (k ∈ fieldnames))
                      (elements (dom (cells d))))
  then Raise ValueError
  else Ok ((fun k => field_text (get d k (VStr ""))) <$> fieldnames).

(** [writer.writerows(rows)] after the records [written]: the records
    before a row that raises are in the file. *)
Fixpoint writerows (fieldnames : list string) (rows : list dict)
  (written : file) : file * result unit :=
  match rows with
  | [] => (written, Ok tt)
  | d :: rest =>
      match dict_to_list fieldnames d with
      | Ok r => writerows fieldnames rest (written ++ [r])
      | Raise e => (written, Raise e)
      end
  end.

(** [writer.writeheader(); writer.writerows(rows)] into a file opened
    for writing (and so emptied). *)
Definition DictWriter (fieldnames : list string) (rows : list dict)
  : file * result unit :=
  writerows fieldnames rows [fieldnames].

End Csv.

(** The file system: the CSV files by path. *)
Abbreviation files := (gmap string Csv.file).

(** ** The program *)

Definition SCHEDULE_FILE : string := "schedule.csv".
Definition SUBMISSIONS_FILE : string := "submissions.csv".
Definition SUBMISSION_HEADERS : list string :=
  ["Debate Number"; "Stakeholder"; "Team Name"; "Position"; "Submission Time"].

(** The offsets of the zone [America/Toronto] in 2025: daylight time
    until 2 November, standard time after. *)
Definition EDT : Z := -14400.
Definition EST : Z := -18000.

Definition localized (y m d : Z) (offset : Z) : DT.aware :=
  DT.mkAware (DT.midnight y m d) offset.

Definition DEBATE_YEAR : Z := 2025.

Definition REVEAL_SCHEDULE : gmap string DT.aware :=
  {[ "Sep 26" := localized DEBATE_YEAR 9 24 EDT;
     "Oct 10" := localized DEBATE_YEAR 10 8 EDT;
     "Oct 24" := localized DEBATE_YEAR 10 22 EDT;
     "Nov 07" := localized DEBATE_YEAR 11 5 EST;
     "Nov 21" := localized DEBATE_YEAR 11 19 EST ]}.

(** [f'{name} {i}'] *)
Definition slot_key (name : string) (i : Z) : string :=
  name +:+ " " +:+ Py.str_of_int i.

(** [range(1, 5)] *)
Definition slots : list Z := [1; 2; 3; 4].

(** [load_data_from_csv]: a missing file is created with the header
    row when [headers] is given and not empty. *)
Definition load_data_from_csv (filepath : string) (headers : option (list string))
    (fs : files) : list dict * files :=
  match fs !! filepath with
  | Some f => (Csv.DictReader f, fs)
  | None =>
      match headers with
      | Some (h :: hs) => ([], <[filepath := [h :: hs]]> fs)
      | _ => ([], fs)
      end
  end.

(** [load_schedule]: without schedule rows the run stops. *)
Definition load_schedule (fs : files) : result (list dict) :=
  match fst (load_data_from_csv SCHEDULE_FILE None fs) with
  | [] => Raise StopException
  | schedule_data => Ok schedule_data
  end.

Definition load_submissions (fs : files) : list dict * files :=
  load_data_from_csv SUBMISSIONS_FILE (Some SUBMISSION_HEADERS) fs.

(** The condition
    [int(sub['Debate Number']) == int(debate_num) and sub['Stakeholder'] == stakeholder],
    evaluated left to right. *)
Definition same_key (sub : dict) (debate_num stakeholder : value) : result bool :=
  n ← getitem sub "Debate Number";
  a ← Py.int n;
  b ← Py.int debate_num;
  if a =? b
  then s ← getitem sub "Stakeholder"; Ok (py_eq s stakeholder)
  else Ok false.

(** The loop of [save_submission]: the first record of the key is
    overwritten in place; the flag is [record_found]. *)
Fixpoint update_first (debate_num stakeholder team_name position : value)
    (stamp : string) (submissions : list dict) : result (list dict * bool) :=
  match submissions with
  | [] => Ok ([], false)
  | sub :: rest =>
      hit ← same_key sub debate_num stakeholder;
      if hit : bool
      then Ok (setitem (setitem (setitem sub "Team Name" team_name)
                                "Position" position)
                       "Submission Time" (VStr stamp) :: rest, true)
      else '(rest', found) ←
             update_first debate_num stakeholder team_name position stamp rest;
           Ok (sub :: rest', found)
  end.

Definition new_submission (debate_num stakeholder team_name position : value)
    (stamp : string) : dict :=
  mkDict (<["Debate Number" := debate_num]>
          (<["Stakeholder" := stakeholder]>
          (<["Team Name" := team_name]>
          (<["Position" := position]>
          (<["Submission Time" := VStr stamp]> ∅))))) None.

(** [save_submission]; [stamp] is the formatted reading of the clock.
    The file is rewritten only when the loop has not raised. *)
Definition save_submission (debate_num stakeholder team_name position : value)
    (stamp : string) (fs : files) : files * result bool :=
  let '(submissions, fs1) :=
    load_data_from_csv SUBMISSIONS_FILE (Some SUBMISSION_HEADERS) fs in
  match update_first debate_num stakeholder team_name position stamp submissions with
  | Raise e => (fs1, Raise e)
  | Ok (updated, record_found) =>
      let submissions' :=
        if record_found then updated
        else updated ++ [new_submission debate_num stakeholder team_name position stamp] in
      let '(f, r) := Csv.DictWriter SUBMISSION_HEADERS submissions' in
      (<[SUBMISSIONS_FILE := f]> fs1, _ ← r; Ok true)
  end.

(** The reset action: [if os.path.exists(F): os.remove(F)] *)
Definition reset_all_submissions (fs : files) : files :=
  delete SUBMISSIONS_FILE fs.

(** The record returned for a matching slot. *)
Record found_debate : Type := mkFound {
  debate_details : dict;
  stakeholder_role : value
}.

(** [debate_row.get(f'Team {i}', '').strip().lower() == team_name.strip().lower()] *)
Definition team_matches (team_name : string) (debate_row : dict) (i : Z)
  : result bool :=
  match get debate_row (slot_key "Team" i) (VStr "") with
  | VStr t => Ok (String.eqb (Py.lower (Py.strip t)) (Py.lower (Py.strip team_name)))
  | _ => Raise AttributeError
  end.

Fixpoint find_in_row (team_name : string) (debate_row : dict) (idx : list Z)
  : result (list found_debate) :=
  match idx with
  | [] => Ok []
  | i :: rest =>
      hit ← team_matches team_name debate_row i;
      more ← find_in_row team_name debate_row rest;
      Ok (if hit : bool
          then mkFound debate_row (get debate_row (slot_key "Stakeholder" i) VNone) :: more
          else more)
  end.

Fixpoint find_in_schedule (team_name : string) (schedule : list dict)
  : result (list found_debate) :=
  match schedule with
  | [] => Ok []
  | debate_row :: rest =>
      here ← find_in_row team_name debate_row slots;
      more ← find_in_schedule team_name rest;
      Ok (here ++ more)
  end.

Definition find_debates_for_team (team_name : string) (schedule : list dict)
  : result (list found_debate) :=
  if String.eqb team_name "" then Ok [] else find_in_schedule team_name schedule.

(** What the schedule view writes into a position column: the dash of
    an empty slot, whose characters lie outside the modelled alphabet,
    or a value. *)
Inductive cell : Type :=
  | Dash
  | Text (v : value).

Section Reveal.

(** The reveal schedule in force (the global [REVEAL_SCHEDULE]). *)
Variable reveal_schedule : gmap string DT.aware.

(** [get_reveal_date_for_debate] *)
Definition get_reveal_date_for_debate (debate_row : dict)
  : result (option DT.aware) :=
  let date_str := get debate_row "Date and Time" (VStr "") in
  if negb (truthy date_str) then Ok None
  else
    match date_str with
    | VStr s =>
        match Py.split s with
        | [] => Raise IndexError
        | w :: _ =>
            match DT.strptime_Y_m_d w with
            | Ok dt_obj => Ok (reveal_schedule !! DT.strftime_b_d dt_obj)
            | Raise ValueError =>
                match DT.strptime_b_d (Py.join " " (take 2 (Py.split s))) with
                | Ok dt_obj => Ok (reveal_schedule !! DT.strftime_b_d dt_obj)
                | Raise ValueError => Ok None
                | Raise e => Raise e
                end
            | Raise e => Raise e
            end
        end
    | _ => Raise AttributeError
    end.

(** [next((s for s in submissions_data if ...), None)] of the schedule
    view: the first record of the key, the conditions evaluated left to
    right for each record. *)
Fixpoint find_submission (submissions_data : list dict) (debate : dict)
    (stakeholder_name : value) : result (option dict) :=
  match submissions_data with
  | [] => Ok None
  | s :: rest =>
      n ← getitem s "Debate Number";
      a ← Py.int n;
      d ← getitem debate "Debate";
      b ← Py.int d;
      hit ← (if a =? b
             then st ← getitem s "Stakeholder"; Ok (py_eq st stakeholder_name)
             else Ok false);
      if hit : bool then Ok (Some s)
      else find_submission rest debate stakeholder_name
  end.

(** The body of the inner loop of the schedule view: the label of
    slot [i]. The loop stores it under the key [f'Position {i}'] of the
    row, an entry that no later turn reads. *)
Definition position_label (now : DT.aware) (submissions_data : list dict)
    (debate : dict) (reveal_date : option DT.aware) (i : Z) : result cell :=
  let team_name := get debate (slot_key "Team" i) VNone in
  let stakeholder_name := get debate (slot_key "Stakeholder" i) VNone in
  if truthy team_name then
    match reveal_date with
    | None => Ok (Text (VStr "CONFIG ERROR"))
    | Some rd =>
        if DT.lt now rd
        then Ok (Text (VStr ("Reveals " +:+ DT.strftime_b_d (DT.local rd))))
        else
          submission ← find_submission submissions_data debate stakeholder_name;
          match submission with
          | Some s =>
              if dict_truthy s
              then p ← getitem s "Position"; Ok (Text p)
              else Ok (Text (VStr "Not Submitted"))
          | None => Ok (Text (VStr "Not Submitted"))
          end
    end
  else Ok Dash.

Fixpoint label_slots (now : DT.aware) (submissions_data : list dict)
    (debate : dict) (reveal_date : option DT.aware) (idx : list Z)
  : result (list cell) :=
  match idx with
  | [] => Ok []
  | i :: rest =>
      c ← position_label now submissions_data debate reveal_date i;
      cs ← label_slots now submissions_data debate reveal_date rest;
      Ok (c :: cs)
  end.

(** One turn of the outer loop: the four labels of a debate. *)
Definition label_debate (now : DT.aware) (submissions_data : list dict)
    (debate : dict) : result (list cell) :=
  reveal_date ← get_reveal_date_for_debate debate;
  label_slots now submissions_data debate reveal_date slots.

Fixpoint label_debates (now : DT.aware) (submissions_data : list dict)
    (results_data : list dict) : result (list (list cell)) :=
  match results_data with
  | [] => Ok []
  | debate :: rest =>
      l ← label_debate now submissions_data debate;
      ls ← label_debates now submissions_data rest;
      Ok (l :: ls)
  end.

(** The filter of the schedule view by the selected team. *)
Definition shown (selected_team : string) (row : dict) : bool :=
  String.eqb selected_team "Show All Teams"
  || existsb (fun i => py_eq (get row (slot_key "Team" i) (VStr "")) (VStr selected_team))
             slots.

(** A run of the script on the page "View Full Schedule": the files
    are loaded, the labels computed. *)
Definition view_full_schedule (now : DT.aware) (selected_team : string)
    (fs : files) : files * result (list (list cell)) :=
  match load_schedule fs with
  | Raise e => (fs, Raise e)
  | Ok schedule_data =>
      let '(submissions_data, fs1) := load_submissions fs in
      (fs1, label_debates now submissions_data
              (List.filter (shown selected_team) schedule_data))
  end.

End Reveal.

(** ** The store as a table

    Definitions used to state the properties: the submissions file seen
    as a table of five-field records, and the effect of an upsert on
    that table. *)

Fixpoint all_chars (p : ascii -> bool) (s : string) : bool :=
  match s with
  | EmptyString => true
  | String c r => p c && all_chars p r
  end.

(** The dictionary that [csv.DictReader] builds for the record
    [[n; s; t; p; w]] of the submissions file. *)
Definition submission_of (r : list string) : dict :=
  match r with
  | [n; s; t; p; w] => new_submission (VStr n) (VStr s) (VStr t) (VStr p) w
  | _ => Csv.read_row SUBMISSION_HEADERS r
  end.

(** A record of the submissions table: five fields, the first the
    text of an integer. *)
Definition wf_record (r : list string) : bool :=
  (length r =? 5)%nat && is_ok (Py.int_of_str (hd "" r)).

Definition wf_file (f : Csv.file) : bool :=
  match f with
  | h :: rows => bool_decide (h = SUBMISSION_HEADERS) && forallb wf_record rows
  | [] => false
  end.

(** A store state: the submissions file is absent, or holds the header
    and well-formed records. *)
Definition wf_store (fs : files) : bool :=
  match fs !! SUBMISSIONS_FILE with
  | None => true
  | Some f => wf_file f
  end.

(** The records of the store, without the header. *)
Definition rows_of (fs : files) : list (list string) :=
  match fs !! SUBMISSIONS_FILE with
  | Some (_ :: rows) => rows
  | _ => []
  end.

(** The record [r] has the key [(d, s)]. *)
Definition row_has_key (d : Z) (s : string) (r : list string) : bool :=
  match r with
  | n :: s' :: _ =>
      match Py.int_of_str n with
      | Ok a => (a =? d) && String.eqb s' s
      | Raise _ => false
      end
  | _ => false
  end.

(** The table after an upsert: the first record of the key gets the new
    team, position and time; without such a record one is appended. *)
Fixpoint upsert_rows (d : Z) (s t p w : string) (rows : list (list string))
  : list (list string) :=
  match rows with
  | [] => [[Py.str_of_int d; s; t; p; w]]
  | r :: rest =>
      if row_has_key d s r
      then [hd "" r; s; t; p; w] :: rest
      else r :: upsert_rows d s t p w rest
  end.

(** The dictionary [sub] is a record of the key [(d, s)], by the
    comparison that [save_submission] and the schedule view make. *)
Definition has_key (d : Z) (s : string) (sub : dict) : bool :=
  match same_key sub (VInt d) (VStr s) with
  | Ok b => b
  | Raise _ => false
  end.

(** A record without its time of submission. *)
Definition without_time (sub : dict) : dict :=
  mkDict (delete "Submission Time" (cells sub)) (overflow sub).

(** One upsert: the arguments of [save_submission] and the reading of
    the clock. *)
Record upsert : Type := mkUpsert {
  u_debate : Z;
  u_stakeholder : string;
  u_team : string;
  u_position : string;
  u_stamp : string
}.

Definition do_upsert (fs : files) (u : upsert) : files :=
  fst (save_submission (VInt (u_debate u)) (VStr (u_stakeholder u))
         (VStr (u_team u)) (VStr (u_position u)) (u_stamp u) fs).

(** A sequence of upserts, each on the store the previous one left. *)
Definition run_upserts (us : list upsert) (fs : files) : files :=
  fold_left do_upsert us fs.

(** The team and position of the most recent upsert of the key
    [(d, s)]: [acc] is the answer before the upsert [u]. *)
Definition last_step (d : Z) (s : string) (acc : option (string * string))
    (u : upsert) : option (string * string) :=
  if (u_debate u =? d) && String.eqb (u_stakeholder u) s
  then Some (u_team u, u_position u) else acc.

Definition last_upsert (d : Z) (s : string) (us : list upsert)
  : option (string * string) :=
  fold_left (last_step d s) us None.

(** The table after the upsert [u]. *)
Definition upsert_table (rows : list (list string)) (u : upsert) : list (list string) :=
  upsert_rows (u_debate u) (u_stakeholder u) (u_team u) (u_position u) (u_stamp u) rows.

(** What the records of a key are, given the last upsert of the key. *)
Definition key_state (d : Z) (s : string) (acc : option (string * string))
    (rows : list (list string)) : Prop :=
  match acc with
  | Some (t, p) =>
      exists n w, List.filter (row_has_key d s) rows = [[n; s; t; p; w]]
                  /\ wf_record [n; s; t; p; w] = true
  | None => List.filter (row_has_key d s) rows = []
  end.

(** The store is empty: no submissions file, or the header alone. *)
Definition empty_store (fs : files) : bool :=
  match fs !! SUBMISSIONS_FILE with
  | None => true
  | Some f => bool_decide (f = [SUBMISSION_HEADERS])
  end.

(** ** The labels of the schedule view on a table *)

(** The record [r] has the debate number [d] and the stakeholder [v];
    a stakeholder that is not a [str] equals none. *)
Definition value_key (d : Z) (v : value) (r : list string) : bool :=
  match v with
  | VStr s => row_has_key d s r
  | _ => false
  end.

(** The label of a slot after the reveal instant: the position of the
    first record of its key, if there is one. *)
Definition revealed_label (d : Z) (v : value) (rows : list (list string)) : cell :=
  match head (List.filter (value_key d v) rows) with
  | Some r => Text (VStr (nth 3 r ""))
  | None => Text (VStr "Not Submitted")
  end.

(** The label of a slot before the reveal instant [rd]. *)
Definition pending_label (rd : DT.aware) : cell :=
  Text (VStr ("Reveals " +:+ DT.strftime_b_d (DT.local rd))).

(** The label of slot [i] of [debate]: the dash for a slot without a
    team, [other] for the others. *)
Definition slot_label (debate : dict) (other : Z -> cell) (i : Z) : cell :=
  if truthy (get debate (slot_key "Team" i) VNone) then other i else Dash.

(** ** The scenario of the specification

    Debate 1, dated 2025-09-20, with the team "Team A" as "Government"
    in its first slot; the positions of 20 September are revealed on
    24 September 2025 at midnight. *)

Definition SCHEDULE_HEADERS : list string :=
  ["Debate"; "Date and Time"; "Resolution";
   "Stakeholder 1"; "Team 1"; "Stakeholder 2"; "Team 2";
   "Stakeholder 3"; "Team 3"; "Stakeholder 4"; "Team 4"].

Definition example_debate : dict :=
  Csv.read_row SCHEDULE_HEADERS
    ["1"; "2025-09-20"; "A resolution"; "Government"; "Team A";
     "Industry"; "Team B"; ""; ""; ""; ""].

Definition example_reveal : gmap string DT.aware :=
  {[ "Sep 20" := localized 2025 9 24 EDT ]}.

(** A schedule row whose date cell is a single space. *)
Definition blank_date_debate : dict :=
  Csv.read_row SCHEDULE_HEADERS
    ["1"; " "; "A resolution"; "Government"; "Team A";
     "Industry"; "Team B"; ""; ""; ""; ""].

(** A schedule file whose only row has a debate identifier that is not
    a number, on a debate day of the reveal schedule, and a store with
    one submission. *)
Definition malformed_id_files (debate_id : string) : files :=
  {[ SCHEDULE_FILE :=
       [SCHEDULE_HEADERS;
        [debate_id; "2025-09-26 10:10"; "A resolution"; "Government"; "Team A";
         "Industry"; "Team B"; ""; ""; ""; ""]];
     SUBMISSIONS_FILE :=
       [SUBMISSION_HEADERS;
        ["2"; "Industry"; "Team C"; "For"; "2025-09-20 09:00:00 EDT"]] ]}.

(** ** Team names equal up to letter case and surrounding whitespace

    The relation of the specification, stated on the texts themselves:
    both names, their surrounding whitespace removed, have the same
    letters up to case. *)

(** A capital letter of the alphabet: A..Z, or a Latin-1 capital. *)
Definition is_capital (c : ascii) : bool :=
  Py.between 65 90 (Py.code c)
  || (Py.between 192 222 (Py.code c) && negb (Py.code c =? 215)%N).

(** [u] is the capital of the small letter [l]. *)
Definition capital_of (u l : ascii) : Prop :=
  is_capital u = true /\ Py.code l = (Py.code u + 32)%N.

Definition same_letter (a b : ascii) : Prop :=
  a = b \/ capital_of a b \/ capital_of b a.

Inductive same_letters : string -> string -> Prop :=
  | same_letters_nil : same_letters EmptyString EmptyString
  | same_letters_cons a b s t :
      same_letter a b -> same_letters s t ->
      same_letters (String a s) (String b t).

(** The text does not start, or end, with whitespace. *)
Definition starts_clean (t : string) : bool :=
  match t with
  | EmptyString => true
  | String c _ => negb (Py.isspace c)
  end.

Fixpoint ends_clean (t : string) : bool :=
  match t with
  | EmptyString => true
  | String c r =>
      match r with
      | EmptyString => negb (Py.isspace c)
      | String _ _ => ends_clean r
      end
  end.

(** [t] is [s] without its surrounding whitespace. *)
Definition trims_to (s t : string) : Prop :=
  exists l r,
    s = l +:+ t +:+ r
    /\ all_chars Py.isspace l = true /\ all_chars Py.isspace r = true
    /\ starts_clean t = true /\ ends_clean t = true.

Definition same_team (a b : string) : Prop :=
  exists ta tb, trims_to a ta /\ trims_to b tb /\ same_letters ta tb.

(** The slots of a schedule that [find_debates_for_team] is to return:
    those whose team passes the test of the loop, in the order of the
    schedule and of the slots. *)
Definition slot_matches (team_name : string) (debate_row : dict) (i : Z) : bool :=
  match team_matches team_name debate_row i with
  | Ok b => b
  | Raise _ => false
  end.

Definition matching_slots (team_name : string) (schedule : list dict)
  : list found_debate :=
  flat_map (fun debate_row =>
    flat_map (fun i =>
      if slot_matches team_name debate_row i
      then [mkFound debate_row (get debate_row (slot_key "Stakeholder" i) VNone)]
      else []) slots) schedule.

(** The team cells of the row hold text (a missing column counts as
    the empty text). *)
Definition is_text (v : value) : bool :=
  match v with VStr _ => true | _ => false end.

Definition text_teams (debate_row : dict) : bool :=
  forallb (fun i => is_text (get debate_row (slot_key "Team" i) (VStr ""))) slots.

(** ** Further views of the store *)

(** A record of five fields, whatever its debate number. *)
Definition five_fields (r : list string) : bool := (length r =? 5)%nat.

(** The loop of [save_submission] meets a record whose debate number
    is not the text of an integer before it meets a record of the key
    [(d, s)]. *)
Fixpoint blocked (d : Z) (s : string) (rows : list (list string)) : bool :=
  match rows with
  | [] => false
  | r :: rest =>
      match Py.int_of_str (hd "" r) with
      | Raise _ => true
      | Ok a =>
          if (a =? d) && String.eqb (nth 1 r "") s then false
          else blocked d s rest
      end
  end.

(** The actions on the store: a load, an upsert, the reset. *)
Inductive action : Type :=
  | Load
  | Save (u : upsert)
  | Reset.

Definition act (fs : files) (a : action) : files :=
  match a with
  | Load => snd (load_submissions fs)
  | Save u => do_upsert fs u
  | Reset => reset_all_submissions fs
  end.

(** The table holds at most one record for every key. *)
Definition at_most_one (table : list dict) : Prop :=
  forall d s, (length (List.filter (has_key d s) table) <= 1)%nat.

(** ** Dates as they are written in the schedule *)

(** The character of the digit [n]. *)
Definition digit_char (n : Z) : ascii := ascii_of_N (48 + Z.to_N n).

(** The year on four digits, and the date [YYYY-MM-DD]. *)
Definition year4 (y : Z) : string :=
  String (digit_char (y / 1000))
    (String (digit_char (y / 100 mod 10))
       (String (digit_char (y / 10 mod 10))
          (String (digit_char (y mod 10)) EmptyString))).

Definition iso_date (y m d : Z) : string :=
  year4 y +:+ "-" +:+ DT.two_digits m +:+ "-" +:+ DT.two_digits d.

(** The text is empty or starts with whitespace: what may follow a
    word. *)
Definition word_end (s : string) : bool :=
  match s with
  | EmptyString => true
  | String c _ => Py.isspace c
  end.

(** A value that is not an integer: what a cell read from a CSV file
    is. *)
Definition not_int (v : value) : bool :=
  match v with VInt _ => false | _ => true end.

(** ** The schedule sanity check of the instructor panel *)

(** What the check reports for a row: the day key of its date is not
    in the reveal schedule, or its date has not the format
    [YYYY-MM-DD]. *)
Inductive finding : Type :=
  | Mismatch (date_str key : string)
  | CannotParse (date_str : string).

Section Diagnostics.

Variable reveal_schedule : gmap string DT.aware.

(** One turn of the loop of the sanity check. *)
Definition check_row (row : dict) : result (list finding) :=
  let date_str := get row "Date and Time" (VStr "") in
  if truthy date_str then
    match date_str with
    | VStr s =>
        match Py.split s with
        | [] => Raise IndexError
        | w :: _ =>
            match DT.strptime_Y_m_d w with
            | Ok dt_obj =>
                let key := DT.strftime_b_d dt_obj in
                if bool_decide (is_Some (reveal_schedule !! key))
                then Ok []
                else Ok [Mismatch s key]
            | Raise ValueError => Ok [CannotParse s]
            | Raise e => Raise e
            end
        end
    | _ => Raise AttributeError
    end
  else Ok [].

(** The loop: the findings of the rows, in order; [errors_found] is
    that there is one. *)
Fixpoint sanity_check (schedule_data : list dict) : result (list finding) :=
  match schedule_data with
  | [] => Ok []
  | row :: rest =>
      here ← check_row row;
      more ← sanity_check rest;
      Ok (here ++ more)
  end.

End Diagnostics.

(** ** The sign-up page and the instructor panel *)

(** [a >= b] on aware datetimes *)
Definition dt_ge (a b : DT.aware) : bool := DT.instant b <=? DT.instant a.

(** An entry of the list of missing submissions. *)
Record missing : Type := mkMissing {
  m_debate : dict;
  m_team : value;
  m_stakeholder : value
}.

(** [any(int(sub['Debate Number']) == int(d['Debate']) and
    sub['Stakeholder'] == s for sub in submissions_data)] *)
Fixpoint any_submission (submissions_data : list dict) (d : dict) (s : value)
  : result bool :=
  match submissions_data with
  | [] => Ok false
  | sub :: rest =>
      n ← getitem sub "Debate Number";
      a ← Py.int n;
      dv ← getitem d "Debate";
      b ← Py.int dv;
      hit ← (if a =? b
             then st ← getitem sub "Stakeholder"; Ok (py_eq st s)
             else Ok false);
      if hit : bool then Ok true else any_submission rest d s
  end.

(** The entries of slot [i] of the debate [d]: the condition
    [(t := d.get(f'Team {i}')) and (s := d.get(f'Stakeholder {i}'))
     and not any(...)]. *)
Definition missing_slot (submissions_data : list dict) (d : dict) (i : Z)
  : result (list missing) :=
  let t := get d (slot_key "Team" i) VNone in
  if truthy t then
    let s := get d (slot_key "Stakeholder" i) VNone in
    if truthy s then
      hit ← any_submission submissions_data d s;
      Ok (if hit : bool then [] else [mkMissing d t s])
    else Ok []
  else Ok [].

Fixpoint missing_slots (submissions_data : list dict) (d : dict) (idx : list Z)
  : result (list missing) :=
  match idx with
  | [] => Ok []
  | i :: rest =>
      here ← missing_slot submissions_data d i;
      more ← missing_slots submissions_data d rest;
      Ok (here ++ more)
  end.

Section Panels.

Variable reveal_schedule : gmap string DT.aware.

(** The test of the list [eligible_debates] of the sign-up page:
    [not ((reveal_date := get_reveal_date_for_debate(...)) and
          now >= reveal_date)]. *)
Definition eligible (now : DT.aware) (item : found_debate) : result bool :=
  reveal_date ← get_reveal_date_for_debate reveal_schedule (debate_details item);
  Ok (negb (match reveal_date with
            | Some rd => dt_ge now rd
            | None => false
            end)).

Fixpoint eligible_debates (now : DT.aware) (assigned_debates : list found_debate)
  : result (list found_debate) :=
  match assigned_debates with
  | [] => Ok []
  | item :: rest =>
      keep ← eligible now item;
      more ← eligible_debates now rest;
      Ok (if keep : bool then item :: more else more)
  end.

(** The list [missing_submissions] of the instructor panel: for the
    debates whose reveal instant has passed, the slots with a team and
    a stakeholder for which no submission is stored. *)
Fixpoint missing_submissions (now : DT.aware) (submissions_data : list dict)
    (schedule_data : list dict) : result (list missing) :=
  match schedule_data with
  | [] => Ok []
  | d :: rest =>
      rd ← get_reveal_date_for_debate reveal_schedule d;
      here ← (if match rd with Some r => dt_ge now r | None => false end
              then missing_slots submissions_data d slots
              else Ok []);
      more ← missing_submissions now submissions_data rest;
      Ok (here ++ more)
  end.

End Panels.

(** A slot label that shows no position: the dash, "CONFIG ERROR" or
    "Reveals <Mon DD>". *)
Definition withheld (c : cell) : Prop :=
  c = Dash \/ c = Text (VStr "CONFIG ERROR") \/ exists rd, c = pending_label rd.

(** ** The HTML table *)

Module Html.

(** [s.replace(c, by)] for a single character [c] *)
Fixpoint replace_char (c : ascii) (by' : string) (s : string) : string :=
  match s with
  | EmptyString => EmptyString
  | String x r =>
      if Ascii.eqb x c then by' +:+ replace_char c by' r
      else String x (replace_char c by' r)
  end.

(** The double quote. *)
Definition dquote : ascii := ascii_of_N 34.

(** [html.escape(s)], with [quote=True]: the five replacements, in the
    order of the library. *)
Definition escape (s : string) : string :=
  replace_char "'" "&#x27;"
    (replace_char dquote "&quot;"
       (replace_char ">" "&gt;"
          (replace_char "<" "&lt;"
             (replace_char "&" "&amp;" s)))).

End Html.

(** [str(v)] *)
Definition py_str (v : value) : string :=
  match v with
  | VNone => "None"
  | VStr s => s
  | VInt z => Py.str_of_int z
  end.

Definition TABLE_STYLE : string :=
  "<style> table { width: 100%; border-collapse: collapse; } th, td { padding: 8px; text-align: left; border-bottom: 1px solid #ddd; } </style>".

(** The loop over the headers in the head of the table. *)
Fixpoint html_head (headers : list string) : string :=
  match headers with
  | [] => ""
  | header :: rest => "<th>" +:+ Html.escape header +:+ "</th>" +:+ html_head rest
  end.

(** The loop over the headers in a row. *)
Fixpoint html_cells (row : dict) (headers : list string) : string :=
  match headers with
  | [] => ""
  | header :: rest =>
      "<td>" +:+ Html.escape (py_str (get row header (VStr ""))) +:+ "</td>"
      +:+ html_cells row rest
  end.

(** The loop over the rows. *)
Fixpoint html_rows (data : list dict) (headers : list string) : string :=
  match data with
  | [] => ""
  | row :: rest =>
      "<tr>" +:+ html_cells row headers +:+ "</tr>" +:+ html_rows rest headers
  end.

(** [generate_html_table] *)
Definition generate_html_table (data : list dict) (headers : list string) : string :=
  TABLE_STYLE +:+ "<table><thead><tr>" +:+ html_head headers
  +:+ "</tr></thead><tbody>" +:+ html_rows data headers +:+ "</tbody></table>".

(** The number of occurrences of the character [c] in [s]. *)
Fixpoint count_char (c : ascii) (s : string) : nat :=
  match s with
  | EmptyString => 0
  | String x r => (if Ascii.eqb x c then 1 else 0) + count_char c r
  end.

(** ** The sign-up page: the options and the submission *)

(** The key of an option of the select box:
    [f"{item['debate_details']['Debate']}: {item['debate_details']['Resolution'][:70]}..."] *)
Definition option_label (item : found_debate) : result string :=
  d ← getitem (debate_details item) "Debate";
  r ← getitem (debate_details item) "Resolution";
  match r with
  | VStr text => Ok (py_str d +:+ ": " +:+ String.substring 0 70 text +:+ "...")
  | _ => Raise TypeError
  end.

(** The dictionary [debate_options]: an item replaces an earlier item
    of the same key. *)
Fixpoint debate_options (eligible_items : list found_debate)
    (acc : gmap string found_debate) : result (gmap string found_debate) :=
  match eligible_items with
  | [] => Ok acc
  | item :: rest =>
      label ← option_label item;
      debate_options rest (<[label := item]> acc)
  end.

Section SignUp.

Variable reveal_schedule : gmap string DT.aware.

(** A run of the script on the page "Sign Up / Change Position" with
    the form submitted: [assigned_debates] and [team_name] are the
    session state, [selected_debate_str] the choice of the select box,
    [position] that of the radio buttons, [stamp] the reading of the
    clock in [save_submission]. The result tells whether a submission
    was saved. *)
Definition sign_up_submit (now : DT.aware) (assigned_debates : list found_debate)
    (team_name : string) (selected_debate_str : option string) (position : string)
    (stamp : string) (fs : files) : files * result bool :=
  match load_schedule fs with
  | Raise e => (fs, Raise e)
  | Ok schedule_data =>
      let '(submissions_data, fs1) := load_submissions fs in
      match assigned_debates with
      | [] => (fs1, Ok false)
      | _ =>
          match eligible_debates reveal_schedule now assigned_debates with
          | Raise e => (fs1, Raise e)
          | Ok [] => (fs1, Ok false)
          | Ok eligible_items =>
              match debate_options eligible_items ∅ with
              | Raise e => (fs1, Raise e)
              | Ok options =>
                  match selected_debate_str with
                  | None => (fs1, Ok false)
                  | Some "" => (fs1, Ok false)
                  | Some selected =>
                      match options !! selected with
                      | None => (fs1, Raise KeyError)
                      | Some selected_item =>
                          let debate_details := debate_details selected_item in
                          let stakeholder_role := stakeholder_role selected_item in
                          match
                            existing_sub ← find_submission submissions_data
                                             debate_details stakeholder_role;
                            _ ← match existing_sub with
                                | Some sub =>
                                    if dict_truthy sub
                                    then p ← getitem sub "Position";
                                         Ok (if py_eq p (VStr "Against") then 1 else 0)
                                    else Ok 0
                                | None => Ok 0
                                end;
                            d ← getitem debate_details "Debate";
                            Py.int d
                          with
                          | Raise e => (fs1, Raise e)
                          | Ok debate_num =>
                              save_submission (VInt debate_num) stakeholder_role
                                (VStr team_name) (VStr position) stamp fs1
                          end
                      end
                  end
              end
          end
      end
  end.

End SignUp.

(** The files of the scenario: the schedule with the debate of the
    scenario, no submissions file. *)
Definition example_files : files :=
  {[ SCHEDULE_FILE :=
       [SCHEDULE_HEADERS;
        ["1"; "2025-09-20"; "A resolution"; "Government"; "Team A";
         "Industry"; "Team B"; ""; ""; ""; ""]] ]}.

(** A store that holds, for debate 1, a record of the stakeholder
    [Government] and a record of its variant [government]. *)
Definition variant_store : files :=
  {[ SUBMISSIONS_FILE :=
       [SUBMISSION_HEADERS;
        ["1"; "Government"; "Team A"; "For"; "09:00"];
        ["1"; "government"; "Team B"; "Against"; "09:05"]] ]}.

(** * Properties *)

Example int_examples :
  Py.int_of_str " 12 " = Ok 12 /\ Py.int_of_str "-007" = Ok (-7)
  /\ Py.int_of_str "1_000" = Ok 1000 /\ Py.int_of_str "1__0" = Raise ValueError
  /\ Py.int_of_str "" = Raise ValueError /\ Py.int_of_str "abc" = Raise ValueError
  /\ Py.int_of_str "+ 1" = Raise ValueError
  /\ Py.int_of_str (String (ascii_of_N 28) "5") = Raise ValueError
  /\ Py.int_of_str (String (ascii_of_N 160) "5") = Ok 5
  /\ Py.str_of_int (-40) = "-40"
  /\ Py.str_of_int 0 = "0".
Proof. repeat split; reflexivity. Qed.

Example str_examples :
  Py.strip "  Team A " = "Team A" /\ Py.lower "Team A" = "team a"
  /\ Py.split " 2025-09-26   10:10 " = ["2025-09-26"; "10:10"]
  /\ Py.split "   " = [] /\ Py.join " " ["Sep"; "26"] = "Sep 26".
Proof. repeat split; reflexivity. Qed.

(** ** Integers and their text *)

Lemma all_chars_impl (p q : ascii -> bool) s :
  (forall c, p c = true -> q c = true) ->
  all_chars p s = true -> all_chars q s = true.
Proof.
  intros Hpq. induction s as [|c r IH]; simpl; [done|].
  rewrite !andb_true_iff. intros [Hc Hr]. auto.
Qed.

Lemma digits_of_uint u : all_chars Py.isdigit (NilEmpty.string_of_uint u) = true.
Proof. induction u; simpl; auto. Qed.

Lemma isdigit_not_space c : Py.isdigit c = true -> negb (Py.isspace c) = true.
Proof.
  unfold Py.isdigit, Py.isspace, Py.between.
  generalize (Py.code c). intros n H.
  rewrite negb_true_iff, !orb_false_iff, !andb_false_iff.
  apply andb_true_iff in H as [H1 H2].
  apply N.leb_le in H1, H2.
  repeat split; try (right; apply N.leb_gt; lia); apply N.eqb_neq; lia.
Qed.

Lemma isdigit_not_int_space c : Py.isdigit c = true -> negb (Py.int_space c) = true.
Proof.
  unfold Py.isdigit, Py.int_space, Py.between.
  generalize (Py.code c). intros n H.
  rewrite negb_true_iff, !orb_false_iff, !andb_false_iff.
  apply andb_true_iff in H as [H1 H2].
  apply N.leb_le in H1, H2.
  repeat split; try (right; apply N.leb_gt; lia); apply N.eqb_neq; lia.
Qed.

Lemma skip_none p s :
  all_chars (fun c => negb (p c)) s = true -> Py.rskip p (Py.lskip p s) = s.
Proof.
  intros H. assert (Py.lskip p s = s) as ->.
  { destruct s as [|c r]; simpl in *; [done|].
    apply andb_true_iff in H as [Hc _]. apply negb_true_iff in Hc. by rewrite Hc. }
  induction s as [|c r IH]; simpl in *; [done|].
  apply andb_true_iff in H as [Hc Hr]. apply negb_true_iff in Hc.
  rewrite (IH Hr), Hc. by destruct r.
Qed.

Lemma rstrip_no_space s :
  all_chars (fun c => negb (Py.isspace c)) s = true -> Py.rstrip s = s.
Proof.
  induction s as [|c r IH]; simpl; [done|].
  rewrite andb_true_iff, negb_true_iff. intros [Hc Hr].
  rewrite (IH Hr), Hc. by destruct r.
Qed.

Lemma strip_no_space s :
  all_chars (fun c => negb (Py.isspace c)) s = true -> Py.strip s = s.
Proof.
  intros H. unfold Py.strip.
  assert (Py.lstrip s = s) as ->; [|by apply rstrip_no_space].
  destruct s as [|c r]; simpl in *; [done|].
  apply andb_true_iff in H as [Hc _]. apply negb_true_iff in Hc. by rewrite Hc.
Qed.

Lemma literal_digits_all b s :
  all_chars Py.isdigit s = true -> (b = true \/ s <> "") ->
  Py.literal_digits b s = Some s.
Proof.
  revert b. induction s as [|c r IH]; simpl; intros b H Hb.
  - destruct Hb as [->|]; done.
  - apply andb_true_iff in H as [Hc Hr]. rewrite Hc, (IH true); auto.
Qed.

Lemma nat_of_literal_uint u :
  u <> Nil ->
  Py.nat_of_literal (NilEmpty.string_of_uint u) = Some (Z.of_N (N.of_uint u)).
Proof.
  intros Hu. unfold Py.nat_of_literal.
  rewrite literal_digits_all; [|apply digits_of_uint|right; by destruct u].
  simpl. by rewrite NilEmpty.usu.
Qed.

Lemma int_of_digits u :
  u <> Nil ->
  Py.int_of_str (NilEmpty.string_of_uint u) = Ok (Z.of_N (N.of_uint u)).
Proof.
  intros Hu. unfold Py.int_of_str.
  rewrite skip_none
    by (eapply all_chars_impl; [apply isdigit_not_int_space|apply digits_of_uint]).
  pose proof (nat_of_literal_uint u Hu) as H.
  destruct u; try done; simpl in *; by rewrite H.
Qed.

(** [int(str(z)) == z] *)
Lemma int_of_str_of_int z : Py.int_of_str (Py.str_of_int z) = Ok z.
Proof.
  destruct z as [|p|p]; [done| |].
  - unfold Py.str_of_int. simpl.
    pose proof (Unsigned.to_uint_nonnil p) as Hn.
    assert (NilZero.string_of_uint (Pos.to_uint p)
            = NilEmpty.string_of_uint (Pos.to_uint p)) as ->
      by (unfold NilZero.string_of_uint; by destruct (Pos.to_uint p)).
    rewrite int_of_digits by done.
    unfold N.of_uint. by rewrite DecimalPos.Unsigned.of_to.
  - unfold Py.str_of_int. simpl.
    pose proof (DecimalPos.Unsigned.to_uint_nonnil p) as Hn.
    assert (NilZero.string_of_uint (Pos.to_uint p)
            = NilEmpty.string_of_uint (Pos.to_uint p)) as ->
      by (unfold NilZero.string_of_uint; by destruct (Pos.to_uint p)).
    unfold Py.int_of_str.
    assert (Py.rskip Py.int_space
              (Py.lskip Py.int_space
                 (String "-" (NilEmpty.string_of_uint (Pos.to_uint p))))
            = String "-" (NilEmpty.string_of_uint (Pos.to_uint p))) as ->.
    { apply skip_none. simpl.
      eapply all_chars_impl; [apply isdigit_not_int_space|apply digits_of_uint]. }
    rewrite nat_of_literal_uint by done. simpl.
    unfold N.of_uint. by rewrite DecimalPos.Unsigned.of_to.
Qed.

(** ** Records of the submissions file and their dictionaries *)

Lemma read_row_submission a b c d e :
  Csv.read_row SUBMISSION_HEADERS [a; b; c; d; e]
  = new_submission (VStr a) (VStr b) (VStr c) (VStr d) e.
Proof. reflexivity. Qed.

Lemma dict_to_list_submission n s t p w :
  Csv.dict_to_list SUBMISSION_HEADERS (new_submission n s t p w)
  = Ok [Csv.field_text n; Csv.field_text s; Csv.field_text t; Csv.field_text p; w].
Proof. reflexivity. Qed.

Lemma setitem_submission n s t p w t' p' w' :
  setitem (setitem (setitem (new_submission n s t p w) "Team Name" t')
                   "Position" p') "Submission Time" (VStr w')
  = new_submission n s t' p' w'.
Proof. reflexivity. Qed.

Lemma getitem_submission n s t p w :
  getitem (new_submission n s t p w) "Debate Number" = Ok n
  /\ getitem (new_submission n s t p w) "Stakeholder" = Ok s
  /\ getitem (new_submission n s t p w) "Team Name" = Ok t
  /\ getitem (new_submission n s t p w) "Position" = Ok p
  /\ getitem (new_submission n s t p w) "Submission Time" = Ok (VStr w).
Proof. repeat split; reflexivity. Qed.

Lemma py_eq_str a b : py_eq (VStr a) (VStr b) = String.eqb a b.
Proof.
  unfold py_eq. destruct (String.eqb_spec a b) as [->|Hne].
  - by rewrite bool_decide_eq_true_2.
  - rewrite bool_decide_eq_false_2; [done|]. by intros [=].
Qed.

Lemma same_key_submission n s t p w d s' :
  same_key (new_submission (VStr n) (VStr s) t p w) (VInt d) (VStr s')
  = match Py.int_of_str n with
    | Ok a => Ok ((a =? d) && String.eqb s s')
    | Raise e => Raise e
    end.
Proof.
  unfold same_key.
  destruct (getitem_submission (VStr n) (VStr s) t p w) as (-> & -> & _).
  cbn. destruct (Py.int_of_str n) as [a|e]; cbn; [|done].
  destruct (a =? d); cbn; [|done]. by rewrite py_eq_str.
Qed.

Lemma wf_record_shape r :
  wf_record r = true ->
  exists a b c d e z, r = [a; b; c; d; e] /\ Py.int_of_str a = Ok z.
Proof.
  unfold wf_record. rewrite andb_true_iff. intros [Hlen Hint].
  apply Nat.eqb_eq in Hlen.
  destruct r as [|a [|b [|c [|d [|e [|]]]]]]; try done.
  simpl in Hint. destruct (Py.int_of_str a) as [z|] eqn:Hz; [|done].
  by exists a, b, c, d, e, z.
Qed.

Lemma wf_record_new d s t p w : wf_record [Py.str_of_int d; s; t; p; w] = true.
Proof. unfold wf_record. simpl. by rewrite int_of_str_of_int. Qed.

Lemma DictReader_wf rows :
  forallb wf_record rows = true ->
  Csv.DictReader (SUBMISSION_HEADERS :: rows) = submission_of <$> rows.
Proof.
  unfold Csv.DictReader. induction rows as [|r rows IH]; [done|].
  simpl. rewrite andb_true_iff. intros [Hr Hrows].
  destruct (wf_record_shape r Hr) as (a & b & c & d & e & z & -> & _).
  simpl. f_equal. by apply IH.
Qed.

Lemma writerows_records ds rows written :
  Forall2 (fun d r => Csv.dict_to_list SUBMISSION_HEADERS d = Ok r) ds rows ->
  Csv.writerows SUBMISSION_HEADERS ds written = (written ++ rows, Ok tt).
Proof.
  intros H. revert written.
  induction H as [|d r ds rows Hd _ IH]; intros written; simpl.
  - by rewrite app_nil_r.
  - rewrite Hd, IH. by rewrite <- app_assoc.
Qed.

Lemma dict_to_list_wf rows :
  forallb wf_record rows = true ->
  Forall2 (fun d r => Csv.dict_to_list SUBMISSION_HEADERS d = Ok r)
          (submission_of <$> rows) rows.
Proof.
  induction rows as [|r rows IH]; simpl; [constructor|].
  rewrite andb_true_iff. intros [Hr Hrows].
  destruct (wf_record_shape r Hr) as (a & b & c & d & e & z & -> & _).
  constructor; [reflexivity|by apply IH].
Qed.

(** The loop of [save_submission] on a well-formed table. *)
Lemma update_first_wf d s t p w rows :
  forallb wf_record rows = true ->
  exists rows' found,
    update_first (VInt d) (VStr s) (VStr t) (VStr p) w (submission_of <$> rows)
      = Ok (submission_of <$> rows', found)
    /\ forallb wf_record rows' = true
    /\ upsert_rows d s t p w rows
       = if found then rows' else rows' ++ [[Py.str_of_int d; s; t; p; w]].
Proof.
  induction rows as [|r rows IH]; simpl.
  - intros _. by exists [], false.
  - rewrite andb_true_iff. intros [Hr Hrows].
    destruct (wf_record_shape r Hr) as (a & b & c & e & f & z & -> & Hz).
    destruct (IH Hrows) as (rows' & found & Hup & Hwf & Hspec).
    simpl. rewrite same_key_submission, Hz. cbn.
    destruct ((z =? d) && String.eqb b s) eqn:Hk.
    + apply andb_true_iff in Hk as [_ Hb]. apply String.eqb_eq in Hb as ->.
      exists ([a; s; t; p; w] :: rows), true. split; [|split].
      * by rewrite setitem_submission.
      * simpl. rewrite Hrows, andb_true_r. unfold wf_record. simpl. by rewrite Hz.
      * done.
    + change (list_fmap _ _ submission_of rows) with (submission_of <$> rows).
      rewrite Hup. cbn.
      exists ([a; b; c; e; f] :: rows'), found. split; [|split].
      * done.
      * simpl. by rewrite Hwf, Hr.
      * rewrite Hspec. by destruct found.
Qed.

Lemma upsert_rows_wf d s t p w rows :
  forallb wf_record rows = true ->
  forallb wf_record (upsert_rows d s t p w rows) = true.
Proof.
  intros H. destruct (update_first_wf d s t p w rows H)
    as (rows' & found & _ & Hwf & ->).
  destruct found; [done|].
  rewrite forallb_app, Hwf. simpl. by rewrite wf_record_new.
Qed.

Lemma wf_store_rows fs :
  wf_store fs = true ->
  forallb wf_record (rows_of fs) = true
  /\ (fs !! SUBMISSIONS_FILE = None
      \/ fs !! SUBMISSIONS_FILE = Some (SUBMISSION_HEADERS :: rows_of fs)).
Proof.
  unfold wf_store, rows_of.
  destruct (fs !! SUBMISSIONS_FILE) as [[|h rows]|]; simpl; try done.
  - rewrite andb_true_iff. intros [Hh Hrows].
    apply bool_decide_eq_true in Hh as ->. auto.
  - auto.
Qed.

(** [load_submissions] on a store state: the dictionaries of its
    records; the file is the header and the records afterwards. *)
Lemma load_submissions_wf fs :
  wf_store fs = true ->
  load_submissions fs
  = (submission_of <$> rows_of fs,
     <[SUBMISSIONS_FILE := SUBMISSION_HEADERS :: rows_of fs]> fs).
Proof.
  intros Hwf. destruct (wf_store_rows fs Hwf) as [Hrows [Hnone|Hsome]].
  - unfold load_submissions, load_data_from_csv, rows_of. by rewrite Hnone.
  - unfold load_submissions, load_data_from_csv. rewrite Hsome.
    rewrite DictReader_wf by done. f_equal. by rewrite insert_id.
Qed.

(** [save_submission] on a store state: it returns [True] and leaves
    the table that [upsert_rows] describes. *)
Lemma save_submission_wf d s t p w fs :
  wf_store fs = true ->
  save_submission (VInt d) (VStr s) (VStr t) (VStr p) w fs
  = (<[SUBMISSIONS_FILE := SUBMISSION_HEADERS :: upsert_rows d s t p w (rows_of fs)]> fs,
     Ok true).
Proof.
  intros Hwf. unfold save_submission.
  pose proof (load_submissions_wf fs Hwf) as Hload.
  unfold load_submissions in Hload. rewrite Hload.
  destruct (wf_store_rows fs Hwf) as [Hrows _].
  destruct (update_first_wf d s t p w _ Hrows)
    as (rows' & found & -> & Hwf' & ->).
  unfold Csv.DictWriter.
  destruct found.
  - rewrite (writerows_records _ rows') by by apply dict_to_list_wf.
    simpl. by rewrite insert_insert_eq.
  - rewrite (writerows_records _ (rows' ++ [[Py.str_of_int d; s; t; p; w]])).
    + simpl. by rewrite insert_insert_eq.
    + apply Forall2_app; [by apply dict_to_list_wf|].
      constructor; [reflexivity|constructor].
Qed.

Lemma rows_of_insert rows (fs : files) :
  rows_of (<[SUBMISSIONS_FILE := SUBMISSION_HEADERS :: rows]> fs) = rows.
Proof. unfold rows_of. by rewrite lookup_insert_eq. Qed.

Lemma wf_store_insert rows (fs : files) :
  forallb wf_record rows = true ->
  wf_store (<[SUBMISSIONS_FILE := SUBMISSION_HEADERS :: rows]> fs) = true.
Proof.
  intros H. unfold wf_store, wf_file. rewrite lookup_insert_eq.
  by rewrite H, bool_decide_eq_true_2.
Qed.

(** ** The table under upserts *)

Lemma row_has_key_new d s t p w d' s' :
  row_has_key d' s' [Py.str_of_int d; s; t; p; w] = (d =? d') && String.eqb s s'.
Proof. unfold row_has_key. by rewrite int_of_str_of_int. Qed.

Lemma row_has_key_updated d s r t p w d' s' :
  row_has_key d s r = true ->
  row_has_key d' s' [hd "" r; s; t; p; w] = (d =? d') && String.eqb s s'.
Proof.
  unfold row_has_key. destruct r as [|n [|s0 r]]; try done. simpl.
  destruct (Py.int_of_str n) as [a|]; [|done].
  rewrite andb_true_iff. intros [Ha _]. apply Z.eqb_eq in Ha. by subst.
Qed.

Lemma row_has_key_other d s r d' s' :
  row_has_key d s r = true ->
  (d =? d') && String.eqb s s' = false ->
  row_has_key d' s' r = false.
Proof.
  unfold row_has_key. destruct r as [|n [|s0 r]]; try done.
  destruct (Py.int_of_str n) as [a|]; [|done].
  rewrite andb_true_iff. intros [Ha Hs].
  apply Z.eqb_eq in Ha. apply String.eqb_eq in Hs. by subst.
Qed.

(** The records of the upserted key: the new values replace those of
    the first one, or a single record appears. *)
Lemma filter_upsert_same d s t p w rows :
  List.filter (row_has_key d s) (upsert_rows d s t p w rows)
  = match List.filter (row_has_key d s) rows with
    | [] => [[Py.str_of_int d; s; t; p; w]]
    | r :: rest => [hd "" r; s; t; p; w] :: rest
    end.
Proof.
  induction rows as [|r rows IH]; cbn [upsert_rows List.filter].
  - by rewrite row_has_key_new, Z.eqb_refl, String.eqb_refl.
  - destruct (row_has_key d s r) eqn:Hr; cbn [List.filter].
    + by rewrite (row_has_key_updated d s r t p w d s Hr), Z.eqb_refl, String.eqb_refl.
    + by rewrite Hr.
Qed.

(** The records of every other key are untouched. *)
Lemma filter_upsert_other d s t p w d' s' rows :
  (d =? d') && String.eqb s s' = false ->
  List.filter (row_has_key d' s') (upsert_rows d s t p w rows)
  = List.filter (row_has_key d' s') rows.
Proof.
  intros Hne. induction rows as [|r rows IH]; cbn [upsert_rows List.filter].
  - by rewrite row_has_key_new, Hne.
  - destruct (row_has_key d s r) eqn:Hr; cbn [List.filter].
    + by rewrite (row_has_key_updated d s r t p w d' s' Hr), Hne,
                 (row_has_key_other d s r d' s' Hr Hne).
    + by rewrite IH.
Qed.

Lemma has_key_submission_of d s r :
  wf_record r = true -> has_key d s (submission_of r) = row_has_key d s r.
Proof.
  intros Hr. destruct (wf_record_shape r Hr) as (a & b & c & e & f & z & -> & Hz).
  unfold has_key. simpl. rewrite same_key_submission. by rewrite Hz.
Qed.

Lemma filter_has_key d s rows :
  forallb wf_record rows = true ->
  List.filter (has_key d s) (submission_of <$> rows)
  = submission_of <$> List.filter (row_has_key d s) rows.
Proof.
  induction rows as [|r rows IH]; [done|].
  cbn [forallb]. rewrite andb_true_iff. intros [Hr Hrows].
  cbn [fmap list_fmap List.filter]. rewrite (has_key_submission_of d s r Hr).
  change (list_fmap _ _ submission_of rows) with (submission_of <$> rows).
  destruct (row_has_key d s r); rewrite IH by done; done.
Qed.

(** A sequence of upserts on a store state returns [True] at every
    step and leaves a store state, whose table is the table of the
    upserts. *)
Lemma run_upserts_wf us fs :
  wf_store fs = true ->
  wf_store (run_upserts us fs) = true
  /\ rows_of (run_upserts us fs) = fold_left upsert_table us (rows_of fs).
Proof.
  revert fs. induction us as [|u us IH]; intros fs Hwf; [done|].
  simpl. destruct (wf_store_rows fs Hwf) as [Hrows _].
  assert (do_upsert fs u
          = <[SUBMISSIONS_FILE := SUBMISSION_HEADERS :: upsert_table (rows_of fs) u]> fs)
    as Hstep by (unfold do_upsert; by rewrite save_submission_wf).
  destruct (IH (do_upsert fs u)) as [Hwf' Hrows'].
  - rewrite Hstep. apply wf_store_insert. by apply upsert_rows_wf.
  - split; [done|]. rewrite Hrows', Hstep. by rewrite rows_of_insert.
Qed.

Lemma key_state_step d s acc rows u :
  key_state d s acc rows ->
  key_state d s (last_step d s acc u) (upsert_table rows u).
Proof.
  intros H. unfold last_step, upsert_table.
  destruct ((u_debate u =? d) && String.eqb (u_stakeholder u) s) eqn:Hk.
  - apply andb_true_iff in Hk as [Hd Hs].
    apply Z.eqb_eq in Hd. apply String.eqb_eq in Hs. subst d s.
    unfold key_state. rewrite filter_upsert_same.
    destruct acc as [[t p]|]; simpl in H.
    + destruct H as (n & w & -> & Hwf). exists n, (u_stamp u). split; [done|].
      unfold wf_record in *. simpl in *. done.
    + rewrite H. eexists _, _. split; [done|]. apply wf_record_new.
  - unfold key_state in *. by rewrite filter_upsert_other.
Qed.

Lemma key_state_run d s us acc rows :
  key_state d s acc rows ->
  key_state d s (fold_left (last_step d s) us acc) (fold_left upsert_table us rows).
Proof.
  revert acc rows. induction us as [|u us IH]; intros acc rows H; [done|].
  simpl. apply IH. by apply key_state_step.
Qed.

Lemma empty_store_wf fs :
  empty_store fs = true -> wf_store fs = true /\ rows_of fs = [].
Proof.
  unfold empty_store, wf_store, rows_of.
  destruct (fs !! SUBMISSIONS_FILE) as [f|]; [|done].
  intros H. apply bool_decide_eq_true in H as ->. done.
Qed.

(** ** The submission store *)

(** C1. After any sequence of upserts on an empty store, the table that
    [load_submissions] returns holds exactly one record for every key
    [(debateId, stakeholder)] that was upserted, with the team name and
    the position of the most recent upsert of that key, and no record
    for a key that was never upserted; every store on the way is a
    store state. *)
Theorem C1_last_write_wins (fs : files) (us : list upsert) (d : Z) (s : string) :
  empty_store fs = true ->
  wf_store (run_upserts us fs) = true
  /\ match last_upsert d s us with
     | Some (t, p) =>
         exists sub,
           List.filter (has_key d s) (fst (load_submissions (run_upserts us fs))) = [sub]
           /\ getitem sub "Team Name" = Ok (VStr t)
           /\ getitem sub "Position" = Ok (VStr p)
     | None =>
         List.filter (has_key d s) (fst (load_submissions (run_upserts us fs))) = []
     end.
Proof.
  intros Hempty. destruct (empty_store_wf fs Hempty) as [Hwf Hnil].
  destruct (run_upserts_wf us fs Hwf) as [Hwf' Hrows]. split; [done|].
  rewrite load_submissions_wf by done. cbn [fst].
  destruct (wf_store_rows _ Hwf') as [Hrec _].
  rewrite filter_has_key by done. rewrite Hrows, Hnil.
  pose proof (key_state_run d s us None [] eq_refl) as Hks.
  unfold last_upsert. destruct (fold_left (last_step d s) us None) as [[t p]|].
  - destruct Hks as (n & w & -> & _).
    exists (new_submission (VStr n) (VStr s) (VStr t) (VStr p) w).
    repeat split; reflexivity.
  - simpl in Hks. by rewrite Hks.
Qed.

Lemma C1_last_write_wins_witness :
  empty_store ∅ = true
  /\ exists sub,
       List.filter (has_key 1 "Government")
         (fst (load_submissions
                 (run_upserts [mkUpsert 1 "Government" "Team A" "For" "09:00";
                               mkUpsert 2 "Industry" "Team B" "For" "09:05";
                               mkUpsert 1 "Government" "Team A" "Against" "09:10"] ∅)))
       = [sub]
       /\ getitem sub "Team Name" = Ok (VStr "Team A")
       /\ getitem sub "Position" = Ok (VStr "Against").
Proof.
  split; [reflexivity|].
  exact (proj2 (C1_last_write_wins ∅
                  [mkUpsert 1 "Government" "Team A" "For" "09:00";
                   mkUpsert 2 "Industry" "Team B" "For" "09:05";
                   mkUpsert 1 "Government" "Team A" "Against" "09:10"]
                  1 "Government" eq_refl)).
Defined.

Lemma load_submissions_absent (fs : files) :
  fs !! SUBMISSIONS_FILE = None ->
  load_submissions fs = ([], <[SUBMISSIONS_FILE := [SUBMISSION_HEADERS]]> fs).
Proof.
  intros H. unfold load_submissions, load_data_from_csv. by rewrite H.
Qed.

(** C6. When the submissions file does not exist, [load_submissions]
    creates it with the header row alone and returns no record. *)
Theorem C6_load_creates_header (fs : files) :
  fs !! SUBMISSIONS_FILE = None ->
  load_submissions fs = ([], <[SUBMISSIONS_FILE := [SUBMISSION_HEADERS]]> fs)
  /\ snd (load_submissions fs) !! SUBMISSIONS_FILE = Some [SUBMISSION_HEADERS].
Proof.
  intros H. rewrite (load_submissions_absent fs H). split; [done|].
  cbn [snd]. apply lookup_insert_eq.
Qed.

Lemma C6_load_creates_header_witness :
  ({[SCHEDULE_FILE := [["Debate"]; ["1"]]]} : files) !! SUBMISSIONS_FILE = None
  /\ load_submissions {[SCHEDULE_FILE := [["Debate"]; ["1"]]]}
     = ([], <[SUBMISSIONS_FILE := [SUBMISSION_HEADERS]]>
              {[SCHEDULE_FILE := [["Debate"]; ["1"]]]}).
Proof.
  split; [reflexivity|].
  refine (proj1 (C6_load_creates_header _ _)). reflexivity.
Defined.

(** C7. Whatever the store holds, after the reset action
    [load_submissions] returns no record and leaves a submissions file
    that holds the header row alone; the other files are untouched. *)
Theorem C7_reset_then_load (fs : files) :
  load_submissions (reset_all_submissions fs)
  = ([], <[SUBMISSIONS_FILE := [SUBMISSION_HEADERS]]> fs)
  /\ reset_all_submissions fs !! SUBMISSIONS_FILE = None
  /\ fst (load_submissions (snd (load_submissions (reset_all_submissions fs)))) = [].
Proof.
  assert (reset_all_submissions fs !! SUBMISSIONS_FILE = None) as Hnone
    by apply lookup_delete_eq.
  rewrite (load_submissions_absent _ Hnone).
  unfold reset_all_submissions. rewrite insert_delete_eq.
  repeat split; [done|].
  cbn [snd]. unfold load_submissions, load_data_from_csv.
  by rewrite lookup_insert_eq.
Qed.

Lemma upsert_rows_twice d s t p w1 w2 rows :
  upsert_rows d s t p w2 (upsert_rows d s t p w1 rows) = upsert_rows d s t p w2 rows.
Proof.
  induction rows as [|r rows IH]; cbn [upsert_rows].
  - by rewrite row_has_key_new, Z.eqb_refl, String.eqb_refl.
  - destruct (row_has_key d s r) eqn:Hr; cbn [upsert_rows].
    + by rewrite (row_has_key_updated d s r t p w1 d s Hr), Z.eqb_refl, String.eqb_refl.
    + by rewrite Hr, IH.
Qed.

Lemma without_time_submission n s t p w w' :
  without_time (new_submission n s t p w) = without_time (new_submission n s t p w').
Proof. reflexivity. Qed.

Lemma upsert_rows_stamp d s t p w1 w2 rows :
  forallb wf_record rows = true ->
  without_time <$> (submission_of <$> upsert_rows d s t p w2 rows)
  = without_time <$> (submission_of <$> upsert_rows d s t p w1 rows).
Proof.
  induction rows as [|r rows IH]; [intros _; reflexivity|].
  cbn [forallb upsert_rows]. rewrite andb_true_iff. intros [Hr Hrows].
  destruct (row_has_key d s r); [done|].
  rewrite !fmap_cons. f_equal. by apply IH.
Qed.

(** C8. On every store state, a second [save_submission] with the same
    arguments returns [True] like the first and leaves the table that
    the first left, the time of submission apart. *)
Theorem C8_upsert_idempotent (fs : files) (d : Z) (s t p w1 w2 : string) :
  wf_store fs = true ->
  snd (save_submission (VInt d) (VStr s) (VStr t) (VStr p) w1 fs) = Ok true
  /\ snd (save_submission (VInt d) (VStr s) (VStr t) (VStr p) w2
            (fst (save_submission (VInt d) (VStr s) (VStr t) (VStr p) w1 fs)))
     = Ok true
  /\ without_time <$>
       fst (load_submissions
              (fst (save_submission (VInt d) (VStr s) (VStr t) (VStr p) w2
                      (fst (save_submission (VInt d) (VStr s) (VStr t) (VStr p) w1 fs)))))
     = without_time <$>
         fst (load_submissions
                (fst (save_submission (VInt d) (VStr s) (VStr t) (VStr p) w1 fs))).
Proof.
  intros Hwf. destruct (wf_store_rows fs Hwf) as [Hrows _].
  rewrite (save_submission_wf d s t p w1 fs Hwf). cbn [fst snd].
  assert (wf_store (<[SUBMISSIONS_FILE :=
            SUBMISSION_HEADERS :: upsert_rows d s t p w1 (rows_of fs)]> fs) = true)
    as Hwf1 by (apply wf_store_insert; by apply upsert_rows_wf).
  rewrite (save_submission_wf d s t p w2 _ Hwf1). cbn [fst snd].
  rewrite rows_of_insert, upsert_rows_twice, insert_insert_eq.
  assert (wf_store (<[SUBMISSIONS_FILE :=
            SUBMISSION_HEADERS :: upsert_rows d s t p w2 (rows_of fs)]> fs) = true)
    as Hwf2 by (apply wf_store_insert; by apply upsert_rows_wf).
  rewrite !load_submissions_wf by done. cbn [fst].
  rewrite !rows_of_insert.
  repeat split. by apply upsert_rows_stamp.
Qed.

Lemma C8_upsert_idempotent_witness :
  wf_store {[SUBMISSIONS_FILE :=
               [SUBMISSION_HEADERS; ["2"; "Industry"; "Team B"; "For"; "08:00"]]]} = true
  /\ without_time <$>
       fst (load_submissions
              (fst (save_submission (VInt 1) (VStr "Government") (VStr "Team A")
                      (VStr "For") "09:10"
                      (fst (save_submission (VInt 1) (VStr "Government") (VStr "Team A")
                              (VStr "For") "09:00"
                              {[SUBMISSIONS_FILE :=
                                  [SUBMISSION_HEADERS;
                                   ["2"; "Industry"; "Team B"; "For"; "08:00"]]]})))))
     = without_time <$>
         fst (load_submissions
                (fst (save_submission (VInt 1) (VStr "Government") (VStr "Team A")
                        (VStr "For") "09:00"
                        {[SUBMISSIONS_FILE :=
                            [SUBMISSION_HEADERS;
                             ["2"; "Industry"; "Team B"; "For"; "08:00"]]]}))).
Proof.
  split; [reflexivity|].
  refine (proj2 (proj2 (C8_upsert_idempotent _ 1 "Government" "Team A" "For"
                          "09:00" "09:10" _))).
  reflexivity.
Defined.

(** ** The schedule view *)

Lemma label_slots_map now subs debate rd (f : Z -> cell) idx :
  Forall (fun i => position_label now subs debate rd i = Ok (f i)) idx ->
  label_slots now subs debate rd idx = Ok (f <$> idx).
Proof.
  induction 1 as [|i idx Hi _ IH]; [done|].
  cbn [label_slots]. rewrite Hi, IH. done.
Qed.

(** Before the reveal instant the label of a slot does not depend on
    the submissions, and no exception is raised. *)
Lemma position_label_pending now subs debate rd i :
  DT.lt now rd = true ->
  position_label now subs debate (Some rd) i
  = Ok (slot_label debate (fun _ => pending_label rd) i).
Proof.
  intros Hlt. unfold position_label, slot_label, pending_label.
  destruct (truthy _); [|done]. by rewrite Hlt.
Qed.

Lemma label_debate_pending sched now subs debate rd :
  get_reveal_date_for_debate sched debate = Ok (Some rd) ->
  DT.lt now rd = true ->
  label_debate sched now subs debate
  = Ok (slot_label debate (fun _ => pending_label rd) <$> slots).
Proof.
  intros Hrd Hlt. unfold label_debate. rewrite Hrd. cbn [mbind result_bind].
  apply label_slots_map. apply Forall_forall. intros i _.
  by apply position_label_pending.
Qed.

Lemma slots_cases i : 1 <= i <= 4 -> i = 1 \/ i = 2 \/ i = 3 \/ i = 4.
Proof. lia. Qed.

Lemma slot_lookup (f : Z -> cell) i :
  1 <= i <= 4 -> (f <$> slots) !! Z.to_nat (i - 1) = Some (f i).
Proof. intros H. destruct (slots_cases i H) as [->|[->|[->| ->]]]; reflexivity. Qed.

(** C2. For a debate with a reveal instant [rd] and an instant [now]
    before it, the schedule view raises nothing and gives every slot
    with a team the label "Reveals <Mon DD>" of [rd], whatever the
    submissions are: the label is not "Not Submitted" and no position
    is read. *)
Theorem C2_pending_before_reveal (sched : gmap string DT.aware) (now rd : DT.aware)
    (debate : dict) (i : Z) :
  get_reveal_date_for_debate sched debate = Ok (Some rd) ->
  DT.lt now rd = true ->
  1 <= i <= 4 ->
  truthy (get debate (slot_key "Team" i) VNone) = true ->
  exists labels,
    (forall subs, label_debate sched now subs debate = Ok labels)
    /\ labels !! Z.to_nat (i - 1)
       = Some (Text (VStr ("Reveals " +:+ DT.strftime_b_d (DT.local rd))))
    /\ Text (VStr ("Reveals " +:+ DT.strftime_b_d (DT.local rd)))
       <> Text (VStr "Not Submitted").
Proof.
  intros Hrd Hlt Hi Hteam.
  exists (slot_label debate (fun _ => pending_label rd) <$> slots).
  split; [|split].
  - intros subs. by apply label_debate_pending.
  - rewrite slot_lookup by done. unfold slot_label. by rewrite Hteam.
  - intros [=].
Qed.

Lemma C2_pending_before_reveal_witness :
  get_reveal_date_for_debate example_reveal example_debate
    = Ok (Some (localized 2025 9 24 EDT))
  /\ DT.lt (localized 2025 9 22 EDT) (localized 2025 9 24 EDT) = true
  /\ exists labels,
       (forall subs,
          label_debate example_reveal (localized 2025 9 22 EDT) subs example_debate
          = Ok labels)
       /\ labels !! Z.to_nat (1 - 1) = Some (Text (VStr "Reveals Sep 24"))
       /\ Text (VStr "Reveals Sep 24") <> Text (VStr "Not Submitted").
Proof.
  split; [reflexivity|]. split; [reflexivity|].
  refine (C2_pending_before_reveal example_reveal (localized 2025 9 22 EDT)
            (localized 2025 9 24 EDT) example_debate 1 _ _ _ _).
  - reflexivity.
  - reflexivity.
  - lia.
  - reflexivity.
Defined.

(** The search of the schedule view on a table of well-formed
    records: the first record of the key, no exception. *)
Lemma find_submission_wf rows debate dv d v :
  forallb wf_record rows = true ->
  getitem debate "Debate" = Ok dv ->
  Py.int dv = Ok d ->
  find_submission (submission_of <$> rows) debate v
  = Ok (submission_of <$> head (List.filter (value_key d v) rows)).
Proof.
  intros Hwf Hdv Hd. induction rows as [|r rows IH]; [done|].
  cbn [forallb] in Hwf. apply andb_true_iff in Hwf as [Hr Hrows].
  destruct (wf_record_shape r Hr) as (a & b & c & e & f & z & -> & Hz).
  cbn [fmap list_fmap find_submission submission_of].
  change (list_fmap _ _ submission_of rows) with (submission_of <$> rows).
  destruct (getitem_submission (VStr a) (VStr b) (VStr c) (VStr e) f) as (-> & -> & _).
  cbn [mbind result_bind Py.int]. rewrite Hz, Hdv. cbn [mbind result_bind].
  rewrite Hd. cbn [mbind result_bind List.filter].
  assert (value_key d v [a; b; c; e; f]
          = (z =? d) && py_eq (VStr b) v) as ->.
  { unfold value_key, row_has_key. destruct v as [|s|n].
    - by rewrite andb_false_r.
    - by rewrite Hz, py_eq_str.
    - by rewrite andb_false_r. }
  destruct (z =? d); cbn [andb mbind result_bind]; [|by apply IH].
  destruct (py_eq (VStr b) v); [done|by apply IH].
Qed.

(** At or after the reveal instant, on a table of well-formed records
    and for a debate whose number is an integer, the label of a slot
    with a team is the position of the first record of its key, or
    "Not Submitted". *)
Lemma position_label_revealed now rows debate rd dv d i :
  forallb wf_record rows = true ->
  getitem debate "Debate" = Ok dv ->
  Py.int dv = Ok d ->
  DT.lt now rd = false ->
  position_label now (submission_of <$> rows) debate (Some rd) i
  = Ok (slot_label debate
          (fun i => revealed_label d (get debate (slot_key "Stakeholder" i) VNone) rows) i).
Proof.
  intros Hwf Hdv Hd Hlt. unfold position_label, slot_label.
  destruct (truthy _); [|done]. rewrite Hlt.
  rewrite (find_submission_wf rows debate dv d _ Hwf Hdv Hd).
  cbn [mbind result_bind]. unfold revealed_label.
  pose proof (proj1 (forallb_forall wf_record rows) Hwf) as Hall.
  destruct (List.filter _ rows) as [|r rest] eqn:Hf; [done|].
  assert (In r rows) as Hin.
  { eapply (proj1 (filter_In _ r rows)). rewrite Hf. by left. }
  destruct (wf_record_shape r (Hall r Hin)) as (a & b & c & e & f & z & -> & _).
  reflexivity.
Qed.

Lemma label_debate_revealed sched now rows debate rd dv d :
  forallb wf_record rows = true ->
  get_reveal_date_for_debate sched debate = Ok (Some rd) ->
  getitem debate "Debate" = Ok dv ->
  Py.int dv = Ok d ->
  DT.lt now rd = false ->
  label_debate sched now (submission_of <$> rows) debate
  = Ok (slot_label debate
          (fun i => revealed_label d (get debate (slot_key "Stakeholder" i) VNone) rows)
        <$> slots).
Proof.
  intros Hwf Hrd Hdv Hd Hlt. unfold label_debate. rewrite Hrd.
  cbn [mbind result_bind]. apply label_slots_map. apply Forall_forall.
  intros i _. by eapply position_label_revealed.
Qed.

Lemma filter_rows_nil d s rows :
  forallb wf_record rows = true ->
  List.filter (has_key d s) (submission_of <$> rows) = [] ->
  List.filter (row_has_key d s) rows = [].
Proof.
  intros Hwf. rewrite filter_has_key by done. apply fmap_nil_inv.
Qed.

(** C3. For a store state, a debate with the integer number [d] and the
    reveal instant [rd], a slot with a team and the stakeholder [s],
    and an instant [now] at or after [rd]: the schedule view raises
    nothing; when the store holds no record of the key [(d, s)] the
    label of the slot is "Not Submitted"; after an upsert of the key
    with the position [p] the label is [p]. *)
Theorem C3_label_after_reveal (sched : gmap string DT.aware) (now rd : DT.aware)
    (fs : files) (debate : dict) (dv : value) (d i : Z) (s : string) :
  wf_store fs = true ->
  get_reveal_date_for_debate sched debate = Ok (Some rd) ->
  DT.lt now rd = false ->
  getitem debate "Debate" = Ok dv ->
  Py.int dv = Ok d ->
  1 <= i <= 4 ->
  truthy (get debate (slot_key "Team" i) VNone) = true ->
  get debate (slot_key "Stakeholder" i) VNone = VStr s ->
  (List.filter (has_key d s) (fst (load_submissions fs)) = [] ->
   exists labels,
     label_debate sched now (fst (load_submissions fs)) debate = Ok labels
     /\ labels !! Z.to_nat (i - 1) = Some (Text (VStr "Not Submitted")))
  /\ (forall t p w,
        exists labels,
          label_debate sched now
            (fst (load_submissions
                    (fst (save_submission (VInt d) (VStr s) (VStr t) (VStr p) w fs))))
            debate = Ok labels
          /\ labels !! Z.to_nat (i - 1) = Some (Text (VStr p))).
Proof.
  intros Hwf Hrd Hlt Hdv Hd Hi Hteam Hst.
  destruct (wf_store_rows fs Hwf) as [Hrows _].
  split.
  - rewrite load_submissions_wf by done. cbn [fst]. intros Hnone.
    apply filter_rows_nil in Hnone; [|done].
    eexists. split; [by eapply label_debate_revealed|].
    rewrite slot_lookup by done. unfold slot_label, revealed_label.
    rewrite Hteam, Hst.
    change (value_key d (VStr s)) with (row_has_key d s). by rewrite Hnone.
  - intros t p w. rewrite save_submission_wf by done. cbn [fst].
    assert (forallb wf_record (upsert_rows d s t p w (rows_of fs)) = true)
      as Hrows' by by apply upsert_rows_wf.
    rewrite load_submissions_wf by by apply wf_store_insert.
    cbn [fst]. rewrite rows_of_insert.
    eexists. split; [by eapply label_debate_revealed|].
    rewrite slot_lookup by done. unfold slot_label, revealed_label.
    rewrite Hteam, Hst.
    change (value_key d (VStr s)) with (row_has_key d s).
    rewrite filter_upsert_same.
    by destruct (List.filter (row_has_key d s) (rows_of fs)).
Qed.

Lemma C3_label_after_reveal_witness :
  DT.lt (localized 2025 9 25 EDT) (localized 2025 9 24 EDT) = false
  /\ (exists labels,
        label_debate example_reveal (localized 2025 9 25 EDT)
          (fst (load_submissions ∅)) example_debate = Ok labels
        /\ labels !! Z.to_nat (1 - 1) = Some (Text (VStr "Not Submitted")))
  /\ (exists labels,
        label_debate example_reveal (localized 2025 9 25 EDT)
          (fst (load_submissions
                  (fst (save_submission (VInt 1) (VStr "Government") (VStr "Team A")
                          (VStr "For") "2025-09-21 10:00:00 EDT" ∅))))
          example_debate = Ok labels
        /\ labels !! Z.to_nat (1 - 1) = Some (Text (VStr "For"))).
Proof.
  split; [reflexivity|].
  pose proof (C3_label_after_reveal example_reveal (localized 2025 9 25 EDT)
                (localized 2025 9 24 EDT) ∅ example_debate (VStr "1") 1 1 "Government"
                eq_refl eq_refl eq_refl eq_refl eq_refl
                (conj (Z.le_refl 1) (Zle_bool_imp_le 1 4 eq_refl))
                eq_refl eq_refl) as [Hnone Hsome].
  split; [exact (Hnone eq_refl)|].
  exact (Hsome "Team A" "For" "2025-09-21 10:00:00 EDT").
Defined.

Lemma upsert_rows_append d s t p w rows :
  List.filter (row_has_key d s) rows = [] ->
  upsert_rows d s t p w rows = rows ++ [[Py.str_of_int d; s; t; p; w]].
Proof.
  induction rows as [|r rows IH]; [done|].
  cbn [List.filter upsert_rows]. destruct (row_has_key d s r); [done|].
  intros H. by rewrite IH.
Qed.

Lemma new_submission_inj n s t p w n' s' t' p' w' :
  new_submission (VStr n) (VStr s) (VStr t) (VStr p) w
  = new_submission (VStr n') (VStr s') (VStr t') (VStr p') w' ->
  [n; s; t; p; w] = [n'; s'; t'; p'; w'].
Proof.
  intros H.
  destruct (getitem_submission (VStr n) (VStr s) (VStr t) (VStr p) w)
    as (H1 & H2 & H3 & H4 & H5).
  rewrite H in H1, H2, H3, H4, H5.
  destruct (getitem_submission (VStr n') (VStr s') (VStr t') (VStr p') w')
    as (G1 & G2 & G3 & G4 & G5).
  congruence.
Qed.

Lemma in_table_row n s t p w rows :
  forallb wf_record rows = true ->
  In (new_submission (VStr n) (VStr s) (VStr t) (VStr p) w) (submission_of <$> rows) ->
  In [n; s; t; p; w] rows.
Proof.
  intros Hwf Hin. apply list_elem_of_In, list_elem_of_fmap in Hin as (r & Heq & Hr).
  apply list_elem_of_In in Hr.
  destruct (wf_record_shape r (proj1 (forallb_forall _ _) Hwf r Hr))
    as (a & b & c & e & f & z & -> & _).
  by rewrite (new_submission_inj _ _ _ _ _ _ _ _ _ _ Heq).
Qed.

Lemma in_row_table r rows : In r rows -> In (submission_of r) (submission_of <$> rows).
Proof. intros H. apply list_elem_of_In, list_elem_of_fmap_2. by apply list_elem_of_In. Qed.

(** A record with another stakeholder text is not a record of the key. *)
Lemma row_has_key_differs d n s s' t p w :
  s' <> s -> row_has_key d s' [n; s; t; p; w] = false.
Proof.
  intros Hne. unfold row_has_key. destruct (Py.int_of_str n); [|done].
  apply String.eqb_neq in Hne. rewrite String.eqb_sym in Hne.
  by rewrite Hne, andb_false_r.
Qed.

Lemma row_has_key_same d n s t p w :
  Py.int_of_str n = Ok d -> row_has_key d s [n; s; t; p; w] = true.
Proof.
  intros H. unfold row_has_key. by rewrite H, Z.eqb_refl, String.eqb_refl.
Qed.

Lemma row_has_key_fields d s r :
  wf_record r = true -> row_has_key d s r = true ->
  exists n t p w, r = [n; s; t; p; w] /\ Py.int_of_str n = Ok d.
Proof.
  intros Hwf. destruct (wf_record_shape r Hwf) as (a & b & c & e & f & z & -> & Hz).
  unfold row_has_key. rewrite Hz, andb_true_iff, Z.eqb_eq, String.eqb_eq.
  intros [-> ->]. by exists a, c, e, f.
Qed.

Lemma length_upsert d s t p w rows :
  length (upsert_rows d s t p w rows)
  = (length rows
     + match List.filter (row_has_key d s) rows with [] => 1 | _ => 0 end)%nat.
Proof.
  induction rows as [|r rows IH]; cbn [upsert_rows List.filter length]; [done|].
  destruct (row_has_key d s r); cbn [length]; [lia|]. rewrite IH. lia.
Qed.

(** An upsert leaves in the table every record that is not of its key. *)
Lemma upsert_rows_keeps d s t p w r rows :
  row_has_key d s r = false -> In r rows -> In r (upsert_rows d s t p w rows).
Proof.
  intros Hr. induction rows as [|r0 rows IH]; [done|].
  cbn [upsert_rows]. intros [->|Hin].
  - rewrite Hr. by left.
  - destruct (row_has_key d s r0); right; [done|by apply IH].
Qed.

Lemma head_filter_in {A} (f : A -> bool) l x :
  head (List.filter f l) = Some x -> In x l /\ f x = true.
Proof.
  intros H. apply filter_In. destruct (List.filter f l) as [|y l']; [done|].
  injection H as ->. by left.
Qed.

(** The store holds no record with the debate number [d] and the
    stakeholder text [s], as the dictionaries read. *)
Lemma no_record_rows d s rows :
  forallb wf_record rows = true ->
  Forall (fun sub => forall n, getitem sub "Debate Number" = Ok (VStr n) ->
                               Py.int_of_str n = Ok d ->
                               getitem sub "Stakeholder" <> Ok (VStr s))
         (submission_of <$> rows) ->
  List.filter (row_has_key d s) rows = [].
Proof.
  induction rows as [|r rows IH]; [done|].
  cbn [forallb]. rewrite andb_true_iff, fmap_cons. intros [Hr Hrows] Hall.
  apply Forall_cons in Hall as [Hsub Hall]. cbn [List.filter].
  destruct (row_has_key d s r) eqn:Hk; [|by apply IH].
  destruct (row_has_key_fields d s r Hr Hk) as (n & t & p & w & -> & Hn).
  by destruct (Hsub n eq_refl Hn).
Qed.

(** C10, as stated, fails on a store that already holds a record of
    the variant. Two calls of [save_submission] on the empty file
    system, for [Government] and then for [government], leave
    [variant_store]. There [government] differs from the stakeholder
    of the stored record of [Government] in letter case only, yet an
    upsert of [(1, government)] returns [True] and appends nothing:
    the table keeps its two records, the second with the new team and
    position; and the search of the schedule view for [(1, government)]
    finds a submission. *)
Lemma C10_stored_variant_counterexample :
  fst (save_submission (VInt 1) (VStr "government") (VStr "Team B") (VStr "Against")
         "09:05"
         (fst (save_submission (VInt 1) (VStr "Government") (VStr "Team A")
                 (VStr "For") "09:00" ∅)))
  = variant_store
  /\ In (new_submission (VStr "1") (VStr "Government") (VStr "Team A") (VStr "For")
           "09:00")
        (fst (load_submissions variant_store))
  /\ "government" <> "Government"
  /\ Py.lower (Py.strip "government") = Py.lower (Py.strip "Government")
  /\ snd (save_submission (VInt 1) (VStr "government") (VStr "Team C") (VStr "For")
            "09:10" variant_store) = Ok true
  /\ fst (load_submissions
            (fst (save_submission (VInt 1) (VStr "government") (VStr "Team C")
                    (VStr "For") "09:10" variant_store)))
     = [new_submission (VStr "1") (VStr "Government") (VStr "Team A") (VStr "For")
          "09:00";
        new_submission (VStr "1") (VStr "government") (VStr "Team C") (VStr "For")
          "09:10"]
  /\ length (fst (load_submissions
                    (fst (save_submission (VInt 1) (VStr "government") (VStr "Team C")
                            (VStr "For") "09:10" variant_store))))
     = length (fst (load_submissions variant_store))
  /\ find_submission (fst (load_submissions variant_store)) example_debate
       (VStr "government")
     = Ok (Some (new_submission (VStr "1") (VStr "government") (VStr "Team B")
                   (VStr "Against") "09:05")).
Proof.
  split; [reflexivity|]. split; [simpl; left; reflexivity|].
  split; [discriminate|]. repeat split; reflexivity.
Qed.

(** C10, amended. The stakeholder of a key is compared by equality of
    the texts. Take a store state that holds a record of the debate [d]
    with the stakeholder [s], and any stakeholder [s'] that is not the
    text [s]: one that differs from it in letter case or surrounding
    whitespace only, for instance. An upsert of [(d, s')] returns
    [True] and does not replace the record of [s]: that record is in
    the table afterwards, beside a record of [s'] with the new team and
    position, and when the store held no record of debate [d] with the
    text [s'] the table is the old one with that record appended. The
    search of the schedule view for [(d, s')] never returns a record of
    [s], and returns nothing when the store holds no record of debate
    [d] with the text [s']. With the text [s] itself the search finds a
    record of [s], and an upsert replaces: the table keeps its
    length. *)
Theorem C10_stakeholder_exact (fs : files) (d : Z)
    (n s t0 p0 w0 s' t p w : string) :
  wf_store fs = true ->
  In (new_submission (VStr n) (VStr s) (VStr t0) (VStr p0) w0)
     (fst (load_submissions fs)) ->
  Py.int_of_str n = Ok d ->
  s' <> s ->
  snd (save_submission (VInt d) (VStr s') (VStr t) (VStr p) w fs) = Ok true
  /\ In (new_submission (VStr n) (VStr s) (VStr t0) (VStr p0) w0)
        (fst (load_submissions
                (fst (save_submission (VInt d) (VStr s') (VStr t) (VStr p) w fs))))
  /\ (exists n',
        In (new_submission (VStr n') (VStr s') (VStr t) (VStr p) w)
           (fst (load_submissions
                   (fst (save_submission (VInt d) (VStr s') (VStr t) (VStr p) w fs))))
        /\ Py.int_of_str n' = Ok d)
  /\ (Forall (fun sub => forall n1, getitem sub "Debate Number" = Ok (VStr n1) ->
                                    Py.int_of_str n1 = Ok d ->
                                    getitem sub "Stakeholder" <> Ok (VStr s'))
             (fst (load_submissions fs)) ->
      fst (load_submissions
             (fst (save_submission (VInt d) (VStr s') (VStr t) (VStr p) w fs)))
      = fst (load_submissions fs)
        ++ [new_submission (VStr (Py.str_of_int d)) (VStr s') (VStr t) (VStr p) w])
  /\ (forall debate dv,
        getitem debate "Debate" = Ok dv -> Py.int dv = Ok d ->
        (exists found,
           find_submission (fst (load_submissions fs)) debate (VStr s) = Ok (Some found)
           /\ getitem found "Stakeholder" = Ok (VStr s))
        /\ (exists result,
              find_submission (fst (load_submissions fs)) debate (VStr s') = Ok result
              /\ forall found, result = Some found ->
                               getitem found "Stakeholder" = Ok (VStr s'))
        /\ (Forall (fun sub => forall n1, getitem sub "Debate Number" = Ok (VStr n1) ->
                                          Py.int_of_str n1 = Ok d ->
                                          getitem sub "Stakeholder" <> Ok (VStr s'))
                   (fst (load_submissions fs)) ->
            find_submission (fst (load_submissions fs)) debate (VStr s') = Ok None))
  /\ length (fst (load_submissions
                    (fst (save_submission (VInt d) (VStr s) (VStr t) (VStr p) w fs))))
     = length (fst (load_submissions fs)).
Proof.
  intros Hwf Hin Hn Hne.
  destruct (wf_store_rows fs Hwf) as [Hrows _].
  pose proof (proj1 (forallb_forall wf_record _) Hrows) as Hall.
  rewrite !save_submission_wf by done. cbn [fst snd].
  assert (forall x, forallb wf_record (upsert_rows d x t p w (rows_of fs)) = true)
    as Hrows' by (intros x; by apply upsert_rows_wf).
  rewrite !(load_submissions_wf (<[_ := _]> fs)) by by apply wf_store_insert.
  rewrite load_submissions_wf in * by done. cbn [fst] in *.
  rewrite !rows_of_insert.
  apply in_table_row in Hin; [|done].
  split; [done|]. split; [|split; [|split; [|split]]].
  - apply (in_row_table [n; s; t0; p0; w0]), upsert_rows_keeps;
      [by apply row_has_key_differs|done].
  - pose proof (filter_upsert_same d s' t p w (rows_of fs)) as Hf.
    assert (exists x, head (List.filter (row_has_key d s')
                              (upsert_rows d s' t p w (rows_of fs)))
                      = Some [x; s'; t; p; w]) as [x Hx].
    { rewrite Hf. destruct (List.filter _ (rows_of fs)); by eexists. }
    apply head_filter_in in Hx as [Hx Hk]. exists x. split.
    + by apply (in_row_table [x; s'; t; p; w]).
    + apply (row_has_key_fields d s' _
               (proj1 (forallb_forall wf_record _) (Hrows' s') _ Hx)) in Hk
        as (? & ? & ? & ? & [= <- _ _ _] & Hd). done.
  - intros Hnone. apply no_record_rows in Hnone; [|done].
    by rewrite (upsert_rows_append _ _ _ _ _ _ Hnone), fmap_app.
  - intros debate dv Hdv Hd. split; [|split].
    + rewrite (find_submission_wf _ debate dv d _ Hrows Hdv Hd).
      change (value_key d (VStr s)) with (row_has_key d s).
      destruct (head (List.filter (row_has_key d s) (rows_of fs))) as [r|] eqn:Hhead.
      * apply head_filter_in in Hhead as [Hr Hk].
        destruct (row_has_key_fields d s r (Hall r Hr) Hk) as (? & ? & ? & ? & -> & _).
        eexists. split; [done|]. reflexivity.
      * assert (In [n; s; t0; p0; w0] (List.filter (row_has_key d s) (rows_of fs)))
          as Hf by (apply filter_In; split; [done|by apply row_has_key_same]).
        by destruct (List.filter (row_has_key d s) (rows_of fs)).
    + rewrite (find_submission_wf _ debate dv d _ Hrows Hdv Hd).
      change (value_key d (VStr s')) with (row_has_key d s').
      eexists. split; [done|]. intros found Hfound.
      destruct (head (List.filter (row_has_key d s') (rows_of fs))) as [r|] eqn:Hhead;
        [|done].
      injection Hfound as <-. apply head_filter_in in Hhead as [Hr Hk].
      destruct (row_has_key_fields d s' r (Hall r Hr) Hk) as (? & ? & ? & ? & -> & _).
      reflexivity.
    + intros Hnone. apply no_record_rows in Hnone; [|done].
      rewrite (find_submission_wf _ debate dv d _ Hrows Hdv Hd).
      change (value_key d (VStr s')) with (row_has_key d s'). by rewrite Hnone.
  - rewrite !length_fmap, length_upsert.
    assert (In [n; s; t0; p0; w0] (List.filter (row_has_key d s) (rows_of fs)))
      as Hf by (apply filter_In; split; [done|by apply row_has_key_same]).
    destruct (List.filter (row_has_key d s) (rows_of fs)); [done|lia].
Qed.

Lemma C10_stakeholder_exact_witness :
  wf_store {[SUBMISSIONS_FILE :=
               [SUBMISSION_HEADERS;
                ["1"; "Government"; "Team A"; "For"; "09:00"]]]} = true
  /\ " government " <> "Government"
  /\ Py.lower (Py.strip " government ") = Py.lower (Py.strip "Government")
  /\ In (new_submission (VStr "1") (VStr "Government") (VStr "Team A") (VStr "For")
           "09:00")
        (fst (load_submissions
                (fst (save_submission (VInt 1) (VStr " government ") (VStr "Team A")
                        (VStr "Against") "09:30"
                        {[SUBMISSIONS_FILE :=
                            [SUBMISSION_HEADERS;
                             ["1"; "Government"; "Team A"; "For"; "09:00"]]]}))))
  /\ exists n',
       In (new_submission (VStr n') (VStr " government ") (VStr "Team A")
             (VStr "Against") "09:30")
          (fst (load_submissions
                  (fst (save_submission (VInt 1) (VStr " government ") (VStr "Team A")
                          (VStr "Against") "09:30"
                          {[SUBMISSIONS_FILE :=
                              [SUBMISSION_HEADERS;
                               ["1"; "Government"; "Team A"; "For"; "09:00"]]]}))))
       /\ Py.int_of_str n' = Ok 1.
Proof.
  split; [reflexivity|]. split; [discriminate|]. split; [reflexivity|].
  pose proof (C10_stakeholder_exact
                {[SUBMISSIONS_FILE :=
                    [SUBMISSION_HEADERS;
                     ["1"; "Government"; "Team A"; "For"; "09:00"]]]}
                1 "1" "Government" "Team A" "For" "09:00"
                " government " "Team A" "Against" "09:30") as H.
  destruct H as (_ & Hkept & Hnew & _).
  - reflexivity.
  - simpl. left. reflexivity.
  - reflexivity.
  - discriminate.
  - split; [exact Hkept|exact Hnew].
Defined.

(** ** The reveal policy *)

Lemma full_match_raises {A} (p : DT.pattern A) s e :
  DT.full_match p s = Raise e -> e = ValueError.
Proof.
  unfold DT.full_match. destruct (p s) as [|[a [|c r]] l]; congruence.
Qed.

Lemma strptime_Y_m_d_raises s e :
  DT.strptime_Y_m_d s = Raise e -> e = ValueError.
Proof.
  unfold DT.strptime_Y_m_d.
  destruct (DT.full_match _ s) as [[[[[y u] m] u'] d]|e'] eqn:Hm; cbn.
  - destruct (DT.valid_date y m d); congruence.
  - intros [= <-]. by eapply full_match_raises.
Qed.

Lemma strptime_b_d_raises s e :
  DT.strptime_b_d s = Raise e -> e = ValueError.
Proof.
  unfold DT.strptime_b_d.
  destruct (DT.full_match _ s) as [[[m u] d]|e'] eqn:Hm; cbn.
  - destruct (DT.valid_date 1900 m d); congruence.
  - intros [= <-]. by eapply full_match_raises.
Qed.

(** The steps of [get_reveal_date_for_debate] on a date text with at
    least one word: the first word is parsed as a date, then the first
    two words as month and day; without a parse the result is [None];
    otherwise it is the entry of the day key in the reveal schedule. *)
Lemma get_reveal_date_steps sched debate s w ws :
  get debate "Date and Time" (VStr "") = VStr s ->
  Py.split s = w :: ws ->
  get_reveal_date_for_debate sched debate
  = match DT.strptime_Y_m_d w with
    | Ok dt => Ok (sched !! DT.strftime_b_d dt)
    | Raise _ =>
        match DT.strptime_b_d (Py.join " " (take 2 (w :: ws))) with
        | Ok dt => Ok (sched !! DT.strftime_b_d dt)
        | Raise _ => Ok None
        end
    end.
Proof.
  intros Hget Hsplit. unfold get_reveal_date_for_debate. rewrite Hget.
  assert (truthy (VStr s) = true) as ->.
  { destruct s; [done|]. reflexivity. }
  cbn [negb]. rewrite Hsplit.
  destruct (DT.strptime_Y_m_d w) as [dt|e] eqn:H1; [done|].
  rewrite (strptime_Y_m_d_raises _ _ H1).
  destruct (DT.strptime_b_d _) as [dt|e'] eqn:H2; [done|].
  by rewrite (strptime_b_d_raises _ _ H2).
Qed.

(** A missing or empty date gives [None]. *)
Lemma get_reveal_date_empty sched debate :
  truthy (get debate "Date and Time" (VStr "")) = false ->
  get_reveal_date_for_debate sched debate = Ok None.
Proof. intros H. unfold get_reveal_date_for_debate. by rewrite H. Qed.

(** Without a reveal instant every slot with a team is labelled
    "CONFIG ERROR", at every instant and whatever the submissions. *)
Lemma label_debate_config_error sched now subs debate :
  get_reveal_date_for_debate sched debate = Ok None ->
  label_debate sched now subs debate
  = Ok (slot_label debate (fun _ => Text (VStr "CONFIG ERROR")) <$> slots).
Proof.
  intros Hrd. unfold label_debate. rewrite Hrd. cbn [mbind result_bind].
  apply label_slots_map. apply Forall_forall. intros i _.
  unfold position_label, slot_label. by destruct (truthy _).
Qed.

Example reveal_date_examples :
  get_reveal_date_for_debate REVEAL_SCHEDULE
    (Csv.read_row SCHEDULE_HEADERS ["1"; "2025-09-26 10:10"])
    = Ok (Some (localized 2025 9 24 EDT))
  /\ get_reveal_date_for_debate REVEAL_SCHEDULE
       (Csv.read_row SCHEDULE_HEADERS ["1"; "Nov 7 10:10"])
     = Ok (Some (localized 2025 11 5 EST))
  /\ get_reveal_date_for_debate REVEAL_SCHEDULE
       (Csv.read_row SCHEDULE_HEADERS ["1"; "2025-12-31"])
     = Ok None
  /\ get_reveal_date_for_debate REVEAL_SCHEDULE
       (Csv.read_row SCHEDULE_HEADERS ["1"; "next week"])
     = Ok None
  /\ get_reveal_date_for_debate REVEAL_SCHEDULE
       (Csv.read_row SCHEDULE_HEADERS ["1"])
     = Ok None.
Proof. repeat split; reflexivity. Qed.

(** C4, at the failing input. For a schedule row whose date cell is a
    single space, [get_reveal_date_for_debate] raises [IndexError]:
    the text has no word, and the handlers catch [ValueError] only. It
    does not return [None], and the schedule view raises with it
    instead of labelling the debate "CONFIG ERROR". *)
Theorem C4_blank_date_raises :
  get_reveal_date_for_debate REVEAL_SCHEDULE blank_date_debate = Raise IndexError
  /\ forall now subs,
       label_debate REVEAL_SCHEDULE now subs blank_date_debate = Raise IndexError.
Proof. split; [reflexivity|]. intros now subs. reflexivity. Qed.

(** C5, at the failing input. With a debate identifier that is not a
    number ("abc", or the empty text), on a debate day whose reveal
    instant has passed, and with a submission in the store, the run of
    the schedule view raises [ValueError]: [int(debate['Debate'])] is
    not guarded, and no label is computed for any debate. *)
Theorem C5_malformed_debate_id_raises :
  snd (view_full_schedule REVEAL_SCHEDULE (localized 2025 9 25 EDT)
         "Show All Teams" (malformed_id_files "abc")) = Raise ValueError
  /\ snd (view_full_schedule REVEAL_SCHEDULE (localized 2025 9 25 EDT)
            "Show All Teams" (malformed_id_files "")) = Raise ValueError.
Proof. split; reflexivity. Qed.

(** ** Trimming and letter case *)

Lemma append_nil_l (b : string) : "" +:+ b = b.
Proof. reflexivity. Qed.

Lemma append_cons x (a b : string) : String x a +:+ b = String x (a +:+ b).
Proof. reflexivity. Qed.

Lemma append_assoc (a b c : string) : (a +:+ b) +:+ c = a +:+ (b +:+ c).
Proof. induction a as [|x a IH]; rewrite ?append_cons, ?append_nil_l; congruence. Qed.

Lemma append_empty_r (a : string) : a +:+ "" = a.
Proof. induction a as [|x a IH]; rewrite ?append_cons, ?append_nil_l; congruence. Qed.

Lemma lstrip_split s :
  exists l, s = l +:+ Py.lstrip s
            /\ all_chars Py.isspace l = true
            /\ starts_clean (Py.lstrip s) = true.
Proof.
  induction s as [|c s (l & Hs & Hl & Hc)]; [by exists ""|].
  cbn [Py.lstrip]. destruct (Py.isspace c) eqn:Hsp.
  - exists (String c l). rewrite append_cons. cbn [all_chars].
    rewrite Hsp, Hl. split; [by rewrite <- Hs|done].
  - exists "". rewrite append_nil_l. cbn [starts_clean all_chars]. by rewrite Hsp.
Qed.

Lemma rstrip_split s :
  exists r, s = Py.rstrip s +:+ r
            /\ all_chars Py.isspace r = true
            /\ ends_clean (Py.rstrip s) = true.
Proof.
  induction s as [|c s (r & Hs & Hr & Hc)]; [by exists ""|].
  cbn [Py.rstrip]. destruct (Py.rstrip s) as [|c' s'] eqn:Hrs.
  - rewrite append_nil_l in Hs. subst s. destruct (Py.isspace c) eqn:Hsp.
    + exists (String c r). rewrite append_nil_l. cbn [all_chars].
      by rewrite Hsp, Hr.
    + exists r. rewrite append_cons, append_nil_l. cbn [ends_clean].
      by rewrite Hsp.
  - exists r. rewrite append_cons. split; [by rewrite <- Hs|]. split; [done|].
    exact Hc.
Qed.

Lemma rstrip_starts s : starts_clean s = true -> starts_clean (Py.rstrip s) = true.
Proof.
  destruct s as [|c s]; [done|]. cbn [starts_clean Py.rstrip]. intros Hc.
  destruct (Py.rstrip s); [|done].
  apply negb_true_iff in Hc. rewrite Hc. cbn [starts_clean]. by rewrite Hc.
Qed.

Lemma lstrip_spaces l x :
  all_chars Py.isspace l = true -> Py.lstrip (l +:+ x) = Py.lstrip x.
Proof.
  induction l as [|c l IH]; [done|]. rewrite append_cons. cbn [all_chars Py.lstrip].
  rewrite andb_true_iff. intros [-> Hl]. by apply IH.
Qed.

Lemma lstrip_clean x : starts_clean x = true -> Py.lstrip x = x.
Proof.
  destruct x as [|c x]; [done|]. simpl. rewrite negb_true_iff. by intros ->.
Qed.

Lemma rstrip_spaces r : all_chars Py.isspace r = true -> Py.rstrip r = "".
Proof.
  induction r as [|c r IH]; [done|]. simpl.
  rewrite andb_true_iff. intros [-> Hr]. by rewrite IH.
Qed.

Lemma rstrip_app_spaces t r :
  all_chars Py.isspace r = true -> Py.rstrip (t +:+ r) = Py.rstrip t.
Proof.
  intros Hr. induction t as [|c t IH].
  - rewrite append_nil_l. by apply rstrip_spaces.
  - rewrite append_cons. cbn [Py.rstrip]. by rewrite IH.
Qed.

Lemma rstrip_clean t : ends_clean t = true -> Py.rstrip t = t.
Proof.
  induction t as [|c t IH]; [done|]. simpl.
  destruct t as [|c' t'].
  - simpl. rewrite negb_true_iff. by intros ->.
  - intros H. by rewrite (IH H).
Qed.

(** [str.strip] removes the surrounding whitespace, and nothing else
    does. *)
Lemma strip_trims s : trims_to s (Py.strip s).
Proof.
  unfold Py.strip.
  destruct (lstrip_split s) as (l & Hs & Hl & Hc).
  destruct (rstrip_split (Py.lstrip s)) as (r & Hs' & Hr & He).
  exists l, r. split; [|by auto using rstrip_starts].
  rewrite Hs at 1. by rewrite Hs' at 1.
Qed.

Lemma trims_strip s t : trims_to s t -> Py.strip s = t.
Proof.
  intros (l & r & -> & Hl & Hr & Hc & He). unfold Py.strip.
  rewrite lstrip_spaces by done.
  destruct t as [|c t].
  - rewrite append_nil_l, <- (append_empty_r r).
    rewrite lstrip_spaces by done. reflexivity.
  - rewrite lstrip_clean by done.
    rewrite rstrip_app_spaces by done. by apply rstrip_clean.
Qed.

Lemma is_capital_range c :
  is_capital c = true <->
  (65 <= Py.code c <= 90
   \/ (192 <= Py.code c <= 222 /\ Py.code c <> 215))%N.
Proof.
  unfold is_capital, Py.between.
  rewrite orb_true_iff, !andb_true_iff, negb_true_iff, !N.leb_le, N.eqb_neq.
  tauto.
Qed.

Lemma code_bounded c : (Py.code c < 256)%N.
Proof. apply N_ascii_bounded. Qed.

Lemma code_inj a b : Py.code a = Py.code b -> a = b.
Proof.
  unfold Py.code. intros H.
  by rewrite <- (ascii_N_embedding a), <- (ascii_N_embedding b), H.
Qed.

Lemma lower_char_capital c :
  is_capital c = true -> Py.code (Py.lower_char c) = (Py.code c + 32)%N.
Proof.
  intros H. change (Py.lower_char c)
    with (if is_capital c then ascii_of_N (Py.code c + 32) else c).
  rewrite H. unfold Py.code at 1. apply N_ascii_embedding.
  apply is_capital_range in H. lia.
Qed.

Lemma lower_char_small c : is_capital c = false -> Py.lower_char c = c.
Proof.
  intros H. change (Py.lower_char c)
    with (if is_capital c then ascii_of_N (Py.code c + 32) else c).
  by rewrite H.
Qed.

Lemma capital_of_small u l : capital_of u l -> is_capital l = false.
Proof.
  intros [Hu Hl]. apply is_capital_range in Hu.
  destruct (is_capital l) eqn:H; [|done].
  apply is_capital_range in H. lia.
Qed.

Lemma capital_of_lower u l : capital_of u l -> Py.lower_char u = Py.lower_char l.
Proof.
  intros H. rewrite (lower_char_small l) by by eapply capital_of_small.
  destruct H as [Hu Hl]. apply code_inj. rewrite lower_char_capital by done. done.
Qed.

(** Two characters are the same letter up to case exactly when
    [str.lower] sends them to the same character. *)
Lemma same_letter_lower a b :
  same_letter a b <-> Py.lower_char a = Py.lower_char b.
Proof.
  split.
  - intros [->|[H|H]]; [done|by apply capital_of_lower|].
    symmetry. by apply capital_of_lower.
  - intros H. apply (f_equal Py.code) in H.
    destruct (is_capital a) eqn:Ha, (is_capital b) eqn:Hb.
    + rewrite !lower_char_capital in H by done.
      left. apply code_inj. lia.
    + rewrite lower_char_capital, (lower_char_small b) in H by done.
      right; left. by split.
    + rewrite (lower_char_small a), lower_char_capital in H by done.
      right; right. by split.
    + rewrite !lower_char_small in H by done. left. by apply code_inj.
Qed.

Lemma same_letters_lower s t : same_letters s t <-> Py.lower s = Py.lower t.
Proof.
  split.
  - induction 1 as [|a b s t Hab _ IH]; [done|].
    simpl. apply same_letter_lower in Hab. by rewrite Hab, IH.
  - revert t. induction s as [|a s IH]; intros [|b t]; simpl; try done.
    + constructor.
    + intros [= Hab Hst]. constructor; [by apply same_letter_lower|by apply IH].
Qed.

(** The test of [find_debates_for_team] decides the relation of the
    specification. *)
Lemma same_team_test a b :
  same_team a b <-> Py.lower (Py.strip a) = Py.lower (Py.strip b).
Proof.
  split.
  - intros (ta & tb & Ha & Hb & H).
    apply trims_strip in Ha, Hb. subst. by apply same_letters_lower.
  - intros H. exists (Py.strip a), (Py.strip b).
    split; [apply strip_trims|]. split; [apply strip_trims|].
    by apply same_letters_lower.
Qed.

(** ** The search for the debates of a team *)

Lemma team_matches_text team_name debate_row i t :
  get debate_row (slot_key "Team" i) (VStr "") = VStr t ->
  team_matches team_name debate_row i
  = Ok (String.eqb (Py.lower (Py.strip t)) (Py.lower (Py.strip team_name))).
Proof. intros H. unfold team_matches. by rewrite H. Qed.

Lemma slot_matches_same_team team_name debate_row i t :
  get debate_row (slot_key "Team" i) (VStr "") = VStr t ->
  slot_matches team_name debate_row i = true <-> same_team t team_name.
Proof.
  intros H. unfold slot_matches. rewrite (team_matches_text _ _ _ _ H).
  rewrite same_team_test. apply String.eqb_eq.
Qed.

Lemma find_in_row_text team_name debate_row idx :
  forallb (fun i => is_text (get debate_row (slot_key "Team" i) (VStr ""))) idx = true ->
  find_in_row team_name debate_row idx
  = Ok (flat_map (fun i =>
          if slot_matches team_name debate_row i
          then [mkFound debate_row (get debate_row (slot_key "Stakeholder" i) VNone)]
          else []) idx).
Proof.
  induction idx as [|i idx IH]; [done|].
  cbn [forallb find_in_row flat_map]. rewrite andb_true_iff. intros [Hi Hidx].
  destruct (get debate_row (slot_key "Team" i) (VStr "")) as [|t|] eqn:Ht; try done.
  unfold slot_matches. rewrite (team_matches_text _ _ _ _ Ht).
  cbn [mbind result_bind]. rewrite (IH Hidx). cbn [mbind result_bind].
  by destruct (String.eqb _ _).
Qed.

Lemma find_in_schedule_text team_name schedule :
  forallb text_teams schedule = true ->
  find_in_schedule team_name schedule = Ok (matching_slots team_name schedule).
Proof.
  induction schedule as [|debate_row schedule IH]; [done|].
  cbn [forallb find_in_schedule]. rewrite andb_true_iff. intros [Hrow Hrest].
  rewrite (find_in_row_text _ _ _ Hrow). cbn [mbind result_bind].
  rewrite (IH Hrest). reflexivity.
Qed.

(** C9, as stated, fails for the empty name: the name and the team of
    an empty slot are equal after trimming, yet no slot is returned. *)
Lemma C9_empty_name_counterexample :
  ~ (forall (team_name : string) (schedule : list dict) (debate_row : dict)
            (i : Z) (t : string),
       In debate_row schedule -> 1 <= i <= 4 ->
       get debate_row (slot_key "Team" i) (VStr "") = VStr t ->
       same_team t team_name ->
       exists found,
         find_debates_for_team team_name schedule = Ok found
         /\ In (mkFound debate_row (get debate_row (slot_key "Stakeholder" i) VNone))
               found).
Proof.
  intros H.
  destruct (H "" [example_debate] example_debate 3 "") as (found & Hfound & Hin).
  - by left.
  - lia.
  - reflexivity.
  - apply same_team_test. reflexivity.
  - cbn in Hfound. injection Hfound as <-. destruct Hin.
Qed.

(** C9, amended. For a schedule whose team cells hold text and a
    queried name that is not empty, [find_debates_for_team] returns, in
    the order of the schedule, exactly the slots whose team passes its
    test, and a slot passes the test if and only if its team and the
    queried name are equal after trimming the surrounding whitespace
    and ignoring the letter case: so "Team A", "team a" and " Team A "
    all match a slot stored as "Team A". For the empty name no slot is
    returned. *)
Theorem C9_team_matching (team_name : string) (schedule : list dict) :
  String.eqb team_name "" = false ->
  forallb text_teams schedule = true ->
  find_debates_for_team team_name schedule = Ok (matching_slots team_name schedule)
  /\ (forall debate_row i t,
        get debate_row (slot_key "Team" i) (VStr "") = VStr t ->
        slot_matches team_name debate_row i = true <-> same_team t team_name)
  /\ (forall debate_row i,
        get debate_row (slot_key "Team" i) (VStr "") = VStr "Team A" ->
        slot_matches "Team A" debate_row i = true
        /\ slot_matches "team a" debate_row i = true
        /\ slot_matches " Team A " debate_row i = true)
  /\ find_debates_for_team "" schedule = Ok [].
Proof.
  intros Hname Htext. split; [|split; [|split]].
  - unfold find_debates_for_team. rewrite Hname. by apply find_in_schedule_text.
  - intros debate_row i t. apply slot_matches_same_team.
  - intros debate_row i H. unfold slot_matches.
    by rewrite !(team_matches_text _ _ _ _ H).
  - reflexivity.
Qed.

Lemma C9_team_matching_witness :
  String.eqb " team a" "" = false
  /\ forallb text_teams [example_debate] = true
  /\ find_debates_for_team " team a" [example_debate]
     = Ok [mkFound example_debate (VStr "Government")].
Proof.
  split; [reflexivity|]. split; [reflexivity|].
  exact (proj1 (C9_team_matching " team a" [example_debate] eq_refl eq_refl)).
Defined.

(** ** The store: further properties *)


Lemma wf_record_five r : wf_record r = true -> five_fields r = true.
Proof. unfold wf_record. rewrite andb_true_iff. by intros [H _]. Qed.

Lemma forallb_wf_five rows :
  forallb wf_record rows = true -> forallb five_fields rows = true.
Proof.
  rewrite !forallb_forall. intros H r Hr. apply wf_record_five. by apply H.
Qed.




Lemma same_key_value n s t p w d v :
  same_key (new_submission (VStr n) (VStr s) t p w) (VInt d) v
  = match Py.int_of_str n with
    | Ok a => Ok ((a =? d) && py_eq (VStr s) v)
    | Raise e => Raise e
    end.
Proof.
  unfold same_key.
  destruct (getitem_submission (VStr n) (VStr s) t p w) as (-> & -> & _).
  cbn. destruct (Py.int_of_str n) as [a|e]; cbn; [|done].
  by destruct (a =? d).
Qed.


Lemma upsert_rows_five d s t p w rows :
  forallb five_fields rows = true ->
  forallb five_fields (upsert_rows d s t p w rows) = true.
Proof.
  induction rows as [|r rows IH]; [done|].
  cbn [forallb upsert_rows]. rewrite andb_true_iff. intros [Hr Hrows].
  destruct (row_has_key d s r); cbn [forallb].
  - by rewrite Hrows.
  - by rewrite Hr, IH.
Qed.



(** A debate number behind the separator U+001C is not an integer for
    [int], although [str.strip] would remove the separator: the record
    blocks the upserts that read it. *)
Example save_separator_number :
  blocked 2 "Industry" [[String (ascii_of_N 28) "1"; "Government"; "Team A"; "For"; "09:00"]]
  = true
  /\ save_submission (VInt 2) (VStr "Industry") (VStr "Team B") (VStr "For") "09:30"
       {[SUBMISSIONS_FILE :=
           [SUBMISSION_HEADERS;
            [String (ascii_of_N 28) "1"; "Government"; "Team A"; "For"; "09:00"]]]}
     = ({[SUBMISSIONS_FILE :=
            [SUBMISSION_HEADERS;
             [String (ascii_of_N 28) "1"; "Government"; "Team A"; "For"; "09:00"]]]},
        Raise ValueError)
  /\ Py.strip (String (ascii_of_N 28) "1") = "1".
Proof. repeat split; reflexivity. Qed.

(** X2. [load_data_from_csv] reads: a file that exists is left as it
    is, no other path is touched, and a second load returns the rows of
    the first and changes nothing (also when the first load created the
    file). *)
Theorem X2_load_is_idempotent (filepath : string) (headers : option (list string))
    (fs : files) :
  load_data_from_csv filepath headers (snd (load_data_from_csv filepath headers fs))
  = load_data_from_csv filepath headers fs
  /\ (is_Some (fs !! filepath) -> snd (load_data_from_csv filepath headers fs) = fs)
  /\ (forall other, other <> filepath ->
        snd (load_data_from_csv filepath headers fs) !! other = fs !! other).
Proof.
  unfold load_data_from_csv.
  destruct (fs !! filepath) as [f|] eqn:Hf; cbn [snd].
  - rewrite Hf. by repeat split.
  - destruct headers as [[|h hs]|]; cbn [snd]; rewrite ?Hf.
    + split; [done|]. split; [by intros [? ?]|done].
    + rewrite lookup_insert_eq. split; [done|]. split; [by intros [? ?]|].
      intros other Hne. by rewrite lookup_insert_ne.
    + split; [done|]. split; [by intros [? ?]|done].
Qed.

(** X3. Whatever the files hold and whatever the arguments are,
    [save_submission] touches no path but the submissions file, and the
    submissions file exists afterwards. *)
Theorem X3_save_touches_one_file (debate_num stakeholder team_name position : value)
    (stamp : string) (fs : files) :
  (forall other, other <> SUBMISSIONS_FILE ->
     fst (save_submission debate_num stakeholder team_name position stamp fs) !! other
     = fs !! other)
  /\ is_Some (fst (save_submission debate_num stakeholder team_name position stamp fs)
              !! SUBMISSIONS_FILE).
Proof.
  unfold save_submission.
  destruct (fs !! SUBMISSIONS_FILE) as [f|] eqn:Hf.
  - unfold load_data_from_csv. rewrite Hf.
    destruct (update_first _ _ _ _ _ _) as [[updated found]|e].
    + destruct (Csv.DictWriter _ _) as [f' r]. cbn [fst]. split.
      * intros other Hne. by rewrite lookup_insert_ne.
      * rewrite lookup_insert_eq. by eexists.
    + cbn [fst]. split; [done|]. rewrite Hf. by eexists.
  - pose proof (load_submissions_absent fs Hf) as Hload.
    unfold load_submissions in Hload. rewrite Hload. cbn [update_first app].
    match goal with
    | |- context [Csv.DictWriter ?a ?b] => destruct (Csv.DictWriter a b) as [f' r]
    end.
    cbn [fst]. split.
    + intros other Hne. by rewrite !lookup_insert_ne.
    + rewrite lookup_insert_eq. by eexists.
Qed.

Lemma update_first_none d t p w rows :
  forallb wf_record rows = true ->
  update_first (VInt d) VNone (VStr t) (VStr p) w (submission_of <$> rows)
  = Ok (submission_of <$> rows, false).
Proof.
  induction rows as [|r rows IH]; [done|].
  cbn [forallb]. rewrite andb_true_iff. intros [Hr Hrows].
  destruct (wf_record_shape r Hr) as (a & b & c & e & f & z & -> & Hz).
  cbn [fmap list_fmap update_first submission_of].
  change (list_fmap _ _ submission_of rows) with (submission_of <$> rows).
  rewrite same_key_value, Hz. cbn [mbind result_bind].
  assert (py_eq (VStr b) VNone = false) as -> by done.
  rewrite andb_false_r, (IH Hrows). done.
Qed.

(** X4. A stakeholder that is [None] (a schedule without the
    stakeholder column) never matches a stored record: on every store
    state [save_submission] returns [True] and appends a record with an
    empty stakeholder, so that a second call with the same arguments
    appends a second one. *)
Theorem X4_none_stakeholder_appends (fs : files) (d : Z) (t p w1 w2 : string) :
  wf_store fs = true ->
  save_submission (VInt d) VNone (VStr t) (VStr p) w1 fs
  = (<[SUBMISSIONS_FILE :=
         SUBMISSION_HEADERS :: rows_of fs ++ [[Py.str_of_int d; ""; t; p; w1]]]> fs,
     Ok true)
  /\ rows_of (fst (save_submission (VInt d) VNone (VStr t) (VStr p) w2
                     (fst (save_submission (VInt d) VNone (VStr t) (VStr p) w1 fs))))
     = rows_of fs ++ [[Py.str_of_int d; ""; t; p; w1]; [Py.str_of_int d; ""; t; p; w2]].
Proof.
  assert (forall fs w, wf_store fs = true ->
            save_submission (VInt d) VNone (VStr t) (VStr p) w fs
            = (<[SUBMISSIONS_FILE :=
                   SUBMISSION_HEADERS :: rows_of fs ++ [[Py.str_of_int d; ""; t; p; w]]]> fs,
               Ok true)) as Hstep.
  { clear fs. intros fs w Hwf. unfold save_submission.
    pose proof (load_submissions_wf fs Hwf) as Hload.
    unfold load_submissions in Hload. rewrite Hload.
    destruct (wf_store_rows fs Hwf) as [Hrows _].
    rewrite (update_first_none d t p w _ Hrows).
    unfold Csv.DictWriter.
    rewrite (writerows_records _ (rows_of fs ++ [[Py.str_of_int d; ""; t; p; w]])).
    - by rewrite insert_insert_eq.
    - apply Forall2_app; [by apply dict_to_list_wf|].
      constructor; [reflexivity|constructor]. }
  intros Hwf. destruct (wf_store_rows fs Hwf) as [Hrows _].
  rewrite (Hstep fs w1 Hwf). split; [done|]. cbn [fst].
  rewrite Hstep.
  - cbn [fst]. rewrite !rows_of_insert. by rewrite <- app_assoc.
  - apply wf_store_insert. rewrite forallb_app, Hrows. cbn [forallb].
    by rewrite wf_record_new.
Qed.

Lemma X4_none_stakeholder_appends_witness :
  rows_of (fst (save_submission (VInt 1) VNone (VStr "Team A") (VStr "For") "09:10"
                  (fst (save_submission (VInt 1) VNone (VStr "Team A") (VStr "For")
                          "09:00" ∅))))
  = rows_of ∅ ++ [[Py.str_of_int 1; ""; "Team A"; "For"; "09:00"];
                  [Py.str_of_int 1; ""; "Team A"; "For"; "09:10"]].
Proof.
  exact (proj2 (X4_none_stakeholder_appends ∅ 1 "Team A" "For" "09:00" "09:10" eq_refl)).
Defined.

Lemma wf_store_load fs : wf_store fs = true -> wf_store (snd (load_submissions fs)) = true.
Proof.
  intros Hwf. rewrite load_submissions_wf by done. cbn [snd].
  apply wf_store_insert. by destruct (wf_store_rows fs Hwf).
Qed.

Lemma wf_store_act fs a : wf_store fs = true -> wf_store (act fs a) = true.
Proof.
  intros Hwf. destruct a as [|u|]; cbn [act].
  - by apply wf_store_load.
  - unfold do_upsert. rewrite save_submission_wf by done. cbn [fst].
    apply wf_store_insert, upsert_rows_wf. by destruct (wf_store_rows fs Hwf).
  - unfold wf_store, reset_all_submissions. by rewrite lookup_delete_eq.
Qed.

(** X5. The store states are closed under the actions: after any
    sequence of loads, upserts and resets on a store state the store is
    a store state again, [load_submissions] returns the dictionaries of
    its records, and a further upsert returns [True]. *)
Theorem X5_store_states_closed (fs : files) (actions : list action) (u : upsert) :
  wf_store fs = true ->
  wf_store (fold_left act actions fs) = true
  /\ fst (load_submissions (fold_left act actions fs))
     = submission_of <$> rows_of (fold_left act actions fs)
  /\ snd (save_submission (VInt (u_debate u)) (VStr (u_stakeholder u))
            (VStr (u_team u)) (VStr (u_position u)) (u_stamp u)
            (fold_left act actions fs)) = Ok true.
Proof.
  intros Hwf.
  assert (wf_store (fold_left act actions fs) = true) as Hwf'.
  { revert fs Hwf. induction actions as [|a actions IH]; intros fs Hwf; [done|].
    cbn [fold_left]. apply IH. by apply wf_store_act. }
  split; [done|]. split.
  - by rewrite load_submissions_wf.
  - by rewrite save_submission_wf.
Qed.

Lemma X5_store_states_closed_witness :
  wf_store (fold_left act
              [Save (mkUpsert 1 "Government" "Team A" "For" "09:00"); Load; Reset;
               Save (mkUpsert 2 "Industry" "Team B" "Against" "09:05")] ∅) = true.
Proof.
  exact (proj1 (X5_store_states_closed ∅
                  [Save (mkUpsert 1 "Government" "Team A" "For" "09:00"); Load; Reset;
                   Save (mkUpsert 2 "Industry" "Team B" "Against" "09:05")]
                  (mkUpsert 1 "Government" "Team A" "For" "09:00") eq_refl)).
Defined.

Lemma length_filter_upsert d s t p w d' s' rows :
  (length (List.filter (row_has_key d' s') rows) <= 1)%nat ->
  (length (List.filter (row_has_key d' s') (upsert_rows d s t p w rows)) <= 1)%nat.
Proof.
  intros H. destruct ((d =? d') && String.eqb s s') eqn:Hk.
  - apply andb_true_iff in Hk as [Hd Hs].
    apply Z.eqb_eq in Hd. apply String.eqb_eq in Hs. subst d' s'.
    rewrite filter_upsert_same.
    by destruct (List.filter (row_has_key d s) rows).
  - by rewrite filter_upsert_other.
Qed.

(** X6. At most one record for every key is an invariant of
    [save_submission]: on a store state whose table holds at most one
    record for every key, the table after the call does too. *)
Theorem X6_one_record_per_key (fs : files) (d : Z) (s t p w : string) :
  wf_store fs = true ->
  at_most_one (fst (load_submissions fs)) ->
  at_most_one (fst (load_submissions
                      (fst (save_submission (VInt d) (VStr s) (VStr t) (VStr p) w fs)))).
Proof.
  intros Hwf Hone d' s'. destruct (wf_store_rows fs Hwf) as [Hrows _].
  specialize (Hone d' s'). rewrite load_submissions_wf in Hone by done.
  cbn [fst] in Hone. rewrite filter_has_key, length_fmap in Hone by done.
  rewrite save_submission_wf by done. cbn [fst].
  assert (forallb wf_record (upsert_rows d s t p w (rows_of fs)) = true)
    as Hrows' by by apply upsert_rows_wf.
  rewrite load_submissions_wf by by apply wf_store_insert.
  cbn [fst]. rewrite rows_of_insert, filter_has_key, length_fmap by done.
  by apply length_filter_upsert.
Qed.

Lemma X6_one_record_per_key_witness :
  at_most_one (fst (load_submissions
                      (fst (save_submission (VInt 1) (VStr "Government") (VStr "Team A")
                              (VStr "For") "09:00" ∅)))).
Proof.
  exact (X6_one_record_per_key ∅ 1 "Government" "Team A" "For" "09:00" eq_refl
           (fun _ _ => Nat.le_0_l 1)).
Defined.

Lemma filter_others_upsert d s t p w rows :
  List.filter (fun r => negb (row_has_key d s r)) (upsert_rows d s t p w rows)
  = List.filter (fun r => negb (row_has_key d s r)) rows.
Proof.
  induction rows as [|r rows IH]; cbn [upsert_rows List.filter].
  - by rewrite row_has_key_new, Z.eqb_refl, String.eqb_refl.
  - destruct (row_has_key d s r) eqn:Hr; cbn [List.filter negb].
    + by rewrite (row_has_key_updated d s r t p w d s Hr), Z.eqb_refl, String.eqb_refl.
    + by rewrite Hr, IH.
Qed.

Lemma filter_not_has_key d s rows :
  forallb wf_record rows = true ->
  List.filter (fun sub => negb (has_key d s sub)) (submission_of <$> rows)
  = submission_of <$> List.filter (fun r => negb (row_has_key d s r)) rows.
Proof.
  induction rows as [|r rows IH]; [done|].
  cbn [forallb]. rewrite andb_true_iff. intros [Hr Hrows].
  cbn [fmap list_fmap List.filter]. rewrite (has_key_submission_of d s r Hr).
  change (list_fmap _ _ submission_of rows) with (submission_of <$> rows).
  destruct (row_has_key d s r); cbn [negb]; rewrite IH by done; done.
Qed.

(** X7. [save_submission] deletes nothing: on a store state the
    records of the other keys are the same after the call, in the same
    order, and the table has one record more when it held none of the
    key, and as many as before otherwise. *)
Theorem X7_save_keeps_other_records (fs : files) (d : Z) (s t p w : string) :
  wf_store fs = true ->
  List.filter (fun sub => negb (has_key d s sub))
    (fst (load_submissions
            (fst (save_submission (VInt d) (VStr s) (VStr t) (VStr p) w fs))))
  = List.filter (fun sub => negb (has_key d s sub)) (fst (load_submissions fs))
  /\ length (fst (load_submissions
                    (fst (save_submission (VInt d) (VStr s) (VStr t) (VStr p) w fs))))
     = (length (fst (load_submissions fs))
        + match List.filter (has_key d s) (fst (load_submissions fs)) with
          | [] => 1
          | _ => 0
          end)%nat.
Proof.
  intros Hwf. destruct (wf_store_rows fs Hwf) as [Hrows _].
  rewrite save_submission_wf by done. cbn [fst].
  assert (forallb wf_record (upsert_rows d s t p w (rows_of fs)) = true)
    as Hrows' by by apply upsert_rows_wf.
  rewrite (load_submissions_wf (<[_ := _]> fs)) by by apply wf_store_insert.
  rewrite load_submissions_wf by done. cbn [fst]. rewrite rows_of_insert.
  rewrite !filter_not_has_key, filter_has_key, !length_fmap by done.
  rewrite filter_others_upsert, length_upsert. split; [done|].
  by destruct (List.filter (row_has_key d s) (rows_of fs)).
Qed.

Lemma X7_save_keeps_other_records_witness :
  List.filter (fun sub => negb (has_key 1 "Government" sub))
    (fst (load_submissions
            (fst (save_submission (VInt 1) (VStr "Government") (VStr "Team A")
                    (VStr "Against") "09:30"
                    {[SUBMISSIONS_FILE :=
                        [SUBMISSION_HEADERS;
                         ["2"; "Industry"; "Team B"; "For"; "08:00"];
                         ["1"; "Government"; "Team A"; "For"; "09:00"]]]}))))
  = List.filter (fun sub => negb (has_key 1 "Government" sub))
      (fst (load_submissions
              {[SUBMISSIONS_FILE :=
                  [SUBMISSION_HEADERS;
                   ["2"; "Industry"; "Team B"; "For"; "08:00"];
                   ["1"; "Government"; "Team A"; "For"; "09:00"]]]})).
Proof.
  refine (proj1 (X7_save_keeps_other_records _ 1 "Government" "Team A" "Against"
                   "09:30" _)).
  reflexivity.
Defined.

(** ** The reveal policy: further properties *)

Lemma split_go_nil cur s :
  Py.split_go cur s = [] <-> cur = "" /\ all_chars Py.isspace s = true.
Proof.
  revert cur. induction s as [|c s IH]; intros cur; cbn [Py.split_go all_chars].
  - destruct (String.eqb_spec cur ""); split; try done; by intros [? _].
  - destruct (Py.isspace c) eqn:Hc; cbn [andb].
    + destruct (String.eqb_spec cur "") as [->|Hne].
      * apply IH.
      * split; [done|]. by intros [? _].
    + rewrite IH. split; [|by intros [_ ?]].
      intros [H _]. by destruct cur.
Qed.

Lemma split_nil s : Py.split s = [] <-> all_chars Py.isspace s = true.
Proof. unfold Py.split. rewrite split_go_nil. by split; [intros [_ ?]|]. Qed.

Lemma zip_cells_not_int fieldnames row (d : gmap string value) k v :
  (forall v', d !! k = Some v' -> not_int v' = true) ->
  Csv.zip_cells fieldnames row d !! k = Some v -> not_int v = true.
Proof.
  revert row d. induction fieldnames as [|n ns IH]; intros row d Hd; cbn [Csv.zip_cells].
  - apply Hd.
  - destruct row as [|f fs]; apply IH; intros v'; rewrite lookup_insert;
      case_decide; try apply Hd; by intros [= <-].
Qed.

Lemma read_row_not_int fieldnames row k dflt :
  not_int dflt = true -> not_int (get (Csv.read_row fieldnames row) k dflt) = true.
Proof.
  intros Hd. unfold get, Csv.read_row. cbn [cells].
  destruct (Csv.zip_cells fieldnames row ∅ !! k) as [v|] eqn:Hv; [|done].
  cbn. eapply zip_cells_not_int; [|done]. intros v'. by rewrite lookup_empty.
Qed.

(** X8. On a row that [csv.DictReader] yields,
    [get_reveal_date_for_debate] raises exactly when the date cell is
    not empty and holds whitespace only, and then it raises
    [IndexError]; on every other row it returns [None] or an entry of
    the reveal schedule. *)
Theorem X8_reveal_date_raises_iff_blank (sched : gmap string DT.aware)
    (fieldnames row : list string) (e : exn) :
  get_reveal_date_for_debate sched (Csv.read_row fieldnames row) = Raise e
  <-> e = IndexError
      /\ exists s, get (Csv.read_row fieldnames row) "Date and Time" (VStr "") = VStr s
                   /\ s <> "" /\ all_chars Py.isspace s = true.
Proof.
  pose proof (read_row_not_int fieldnames row "Date and Time" (VStr "") eq_refl) as Hni.
  unfold get_reveal_date_for_debate.
  destruct (get (Csv.read_row fieldnames row) "Date and Time" (VStr "")) as [|s|z];
    [| |done].
  - cbn. split; [done|]. by intros [_ (s & ? & _)].
  - destruct s as [|c s]; [cbn; split; [done|]; by intros [_ (s & [= <-] & ? & _)]|].
    change (negb (truthy (VStr (String c s)))) with false. cbn match.
    destruct (Py.split (String c s)) as [|w ws] eqn:Hsplit.
    + apply split_nil in Hsplit. split.
      * intros [= <-]. split; [done|]. by exists (String c s).
      * by intros [-> _].
    + assert (all_chars Py.isspace (String c s) <> true) as Hns.
      { intros H. apply split_nil in H. congruence. }
      assert (forall r : result (option DT.aware),
                (exists o, r = Ok o) ->
                r = Raise e <-> e = IndexError
                  /\ exists s0, VStr (String c s) = VStr s0 /\ s0 <> ""
                                /\ all_chars Py.isspace s0 = true) as Hok.
      { intros r [o ->]. split; [done|]. by intros [_ (s0 & [= <-] & _ & ?)]. }
      apply Hok.
      destruct (DT.strptime_Y_m_d w) as [dt|e1] eqn:H1; [by eexists|].
      rewrite (strptime_Y_m_d_raises _ _ H1).
      destruct (DT.strptime_b_d _) as [dt|e2] eqn:H2; [by eexists|].
      rewrite (strptime_b_d_raises _ _ H2). by eexists.
Qed.

Lemma digit_cases (k : Z) : 0 <= k <= 9 -> In k [0; 1; 2; 3; 4; 5; 6; 7; 8; 9].
Proof. cbn [In]. lia. Qed.

Lemma digit_char_facts n : 0 <= n <= 9 ->
  Py.isdigit (digit_char n) = true /\ DT.digit_value (digit_char n) = n
  /\ Py.isspace (digit_char n) = false.
Proof.
  intros H. pose proof (digit_cases n H) as Hn. cbn [In] in Hn.
  destruct_or!; try done; subst n; repeat split; reflexivity.
Qed.

Lemma re_Y_year4 y r : 0 <= y <= 9999 -> DT.re_Y (year4 y +:+ r) = [(y, r)].
Proof.
  intros Hy. unfold DT.re_Y, year4.
  assert (0 <= y / 1000 <= 9) as H1 by (Z.to_euclidean_division_equations; lia).
  assert (0 <= y / 100 mod 10 <= 9) as H2 by (Z.to_euclidean_division_equations; lia).
  assert (0 <= y / 10 mod 10 <= 9) as H3 by (Z.to_euclidean_division_equations; lia).
  assert (0 <= y mod 10 <= 9) as H4 by (Z.to_euclidean_division_equations; lia).
  destruct (digit_char_facts _ H1) as (a1 & b1 & _).
  destruct (digit_char_facts _ H2) as (a2 & b2 & _).
  destruct (digit_char_facts _ H3) as (a3 & b3 & _).
  destruct (digit_char_facts _ H4) as (a4 & b4 & _).
  change (String ?a (String ?b (String ?c (String ?d "")))+:+ r) with (String a (String b (String c (String d r)))).
  unfold DT.two. rewrite a1, a2. cbn [andb mbind list_bind app].
  rewrite a3, a4, b1, b2, b3, b4. cbn [andb mbind list_bind app]. do 2 f_equal.
  Z.to_euclidean_division_equations; lia.
Qed.

Lemma month_cases m : 1 <= m <= 12 ->
  m = 1 \/ m = 2 \/ m = 3 \/ m = 4 \/ m = 5 \/ m = 6 \/ m = 7 \/ m = 8 \/ m = 9
  \/ m = 10 \/ m = 11 \/ m = 12.
Proof. lia. Qed.

Lemma day_cases d : 1 <= d <= 31 ->
  d = 1 \/ d = 2 \/ d = 3 \/ d = 4 \/ d = 5 \/ d = 6 \/ d = 7 \/ d = 8 \/ d = 9
  \/ d = 10 \/ d = 11 \/ d = 12 \/ d = 13 \/ d = 14 \/ d = 15 \/ d = 16 \/ d = 17
  \/ d = 18 \/ d = 19 \/ d = 20 \/ d = 21 \/ d = 22 \/ d = 23 \/ d = 24 \/ d = 25
  \/ d = 26 \/ d = 27 \/ d = 28 \/ d = 29 \/ d = 30 \/ d = 31.
Proof. lia. Qed.

Lemma strptime_iso_date y m d :
  0 <= y <= 9999 -> 1 <= m <= 12 -> 1 <= d <= 31 ->
  DT.strptime_Y_m_d (iso_date y m d)
  = if DT.valid_date y m d then Ok (DT.midnight y m d) else Raise ValueError.
Proof.
  intros Hy Hm Hd. unfold DT.strptime_Y_m_d, DT.full_match, DT.seq, iso_date.
  rewrite (re_Y_year4 y _ Hy).
  pose proof (month_cases m Hm) as Hmc. pose proof (day_cases d Hd) as Hdc.
  destruct_or!; subst m d; reflexivity.
Qed.


Lemma all_chars_app p (a b : string) :
  all_chars p (a +:+ b) = all_chars p a && all_chars p b.
Proof.
  induction a as [|c a IH]; [done|].
  rewrite append_cons. cbn [all_chars]. by rewrite IH, andb_assoc.
Qed.

Lemma split_go_word cur w rest :
  all_chars (fun c => negb (Py.isspace c)) w = true ->
  Py.split_go cur (w +:+ rest) = Py.split_go (cur +:+ w) rest.
Proof.
  revert cur. induction w as [|c w IH]; intros cur.
  - intros _. by rewrite append_nil_l, append_empty_r.
  - cbn [all_chars]. rewrite andb_true_iff, negb_true_iff. intros [Hc Hw].
    rewrite append_cons. cbn [Py.split_go]. rewrite Hc, (IH _ Hw).
    by rewrite append_assoc.
Qed.

Lemma split_go_end cur rest :
  cur <> "" -> word_end rest = true -> exists ws, Py.split_go cur rest = cur :: ws.
Proof.
  intros Hcur Hrest. apply String.eqb_neq in Hcur.
  destruct rest as [|c rest]; cbn [Py.split_go word_end] in *.
  - rewrite Hcur. by eexists.
  - rewrite Hrest, Hcur. by eexists.
Qed.

(** The first word of a text that starts with a word. *)
Lemma split_first_word w rest :
  w <> "" -> all_chars (fun c => negb (Py.isspace c)) w = true ->
  word_end rest = true ->
  exists ws, Py.split (w +:+ rest) = w :: ws.
Proof.
  intros Hw Hclean Hrest. unfold Py.split.
  rewrite (split_go_word _ _ _ Hclean), append_nil_l. by apply split_go_end.
Qed.

Lemma valid_date_ranges y m d :
  DT.valid_date y m d = true -> 0 <= y <= 9999 /\ 1 <= m <= 12 /\ 1 <= d <= 31.
Proof.
  unfold DT.valid_date. rewrite !andb_true_iff, !Z.leb_le.
  intros (((((Hy1 & Hy2) & Hm1) & Hm2) & Hd1) & Hd2).
  assert (DT.days_in_month y m <= 31); [|lia].
  unfold DT.days_in_month. destruct ((m =? 2) && DT.is_leap y); [lia|].
  pose proof (month_cases m ltac:(lia)) as Hmc.
  destruct_or!; subst m; by vm_compute.
Qed.

Lemma iso_date_clean y m d :
  0 <= y <= 9999 -> 1 <= m <= 12 -> 1 <= d <= 31 ->
  iso_date y m d <> ""
  /\ all_chars (fun c => negb (Py.isspace c)) (iso_date y m d) = true.
Proof.
  intros Hy Hm Hd. split; [done|]. unfold iso_date.
  rewrite !all_chars_app.
  assert (all_chars (fun c => negb (Py.isspace c)) (year4 y) = true) as ->.
  { unfold year4. cbn [all_chars].
    assert (0 <= y / 1000 <= 9) as H1 by (Z.to_euclidean_division_equations; lia).
    assert (0 <= y / 100 mod 10 <= 9) as H2 by (Z.to_euclidean_division_equations; lia).
    assert (0 <= y / 10 mod 10 <= 9) as H3 by (Z.to_euclidean_division_equations; lia).
    assert (0 <= y mod 10 <= 9) as H4 by (Z.to_euclidean_division_equations; lia).
    destruct (digit_char_facts _ H1) as (_ & _ & ->).
    destruct (digit_char_facts _ H2) as (_ & _ & ->).
    destruct (digit_char_facts _ H3) as (_ & _ & ->).
    by destruct (digit_char_facts _ H4) as (_ & _ & ->). }
  assert (all_chars (fun c => negb (Py.isspace c)) (DT.two_digits m) = true) as ->.
  { pose proof (month_cases m Hm) as Hmc. destruct_or!; subst m; reflexivity. }
  assert (all_chars (fun c => negb (Py.isspace c)) (DT.two_digits d) = true) as ->.
  { pose proof (day_cases d Hd) as Hdc. destruct_or!; subst d; reflexivity. }
  reflexivity.
Qed.

(** X9. A date cell that starts with a calendar date written
    [YYYY-MM-DD], alone or followed by whitespace and anything else,
    gets the entry of the reveal schedule under the key "Mon DD" of its
    month and day ([None] without such an entry); the year plays no
    part in the key. *)
Theorem X9_iso_date_reveal (sched : gmap string DT.aware) (debate_row : dict)
    (y m d : Z) (rest : string) :
  DT.valid_date y m d = true ->
  word_end rest = true ->
  get debate_row "Date and Time" (VStr "") = VStr (iso_date y m d +:+ rest) ->
  get_reveal_date_for_debate sched debate_row
  = Ok (sched !! DT.strftime_b_d (DT.midnight y m d))
  /\ forall y', DT.strftime_b_d (DT.midnight y' m d)
                = DT.strftime_b_d (DT.midnight y m d).
Proof.
  intros Hvalid Hrest Hget. split; [|done].
  destruct (valid_date_ranges y m d Hvalid) as (Hy & Hm & Hd).
  destruct (iso_date_clean y m d Hy Hm Hd) as [Hne Hclean].
  destruct (split_first_word _ rest Hne Hclean Hrest) as [ws Hsplit].
  rewrite (get_reveal_date_steps sched debate_row _ _ _ Hget Hsplit).
  by rewrite strptime_iso_date, Hvalid.
Qed.

Lemma X9_iso_date_reveal_witness :
  get_reveal_date_for_debate REVEAL_SCHEDULE
    (Csv.read_row SCHEDULE_HEADERS ["1"; "2025-11-07 10:10"])
  = Ok (REVEAL_SCHEDULE !! DT.strftime_b_d (DT.midnight 2025 11 7)).
Proof.
  refine (proj1 (X9_iso_date_reveal REVEAL_SCHEDULE _ 2025 11 7 " 10:10" _ _ _));
    reflexivity.
Defined.

(** ** The schedule sanity check *)

Lemma check_row_clean sched row :
  check_row sched row = Ok [] ->
  truthy (get row "Date and Time" (VStr "")) = false
  \/ exists rd, get_reveal_date_for_debate sched row = Ok (Some rd).
Proof.
  unfold check_row, get_reveal_date_for_debate.
  destruct (truthy (get row "Date and Time" (VStr ""))) eqn:Ht; [|by left].
  intros H. right. cbn [negb].
  destruct (get row "Date and Time" (VStr "")) as [|s|z]; try done.
  destruct (Py.split s) as [|w ws]; [done|].
  destruct (DT.strptime_Y_m_d w) as [dt|e]; [|by destruct e].
  cbn zeta in H. case_bool_decide as Hin; [|done].
  destruct Hin as [rd Hrd]. exists rd. by rewrite Hrd.
Qed.

(** X10. When the sanity check of the instructor panel finds nothing,
    every debate of the schedule with a date has a reveal instant: the
    schedule view shows no "CONFIG ERROR" for it. (A row without a date
    is not checked.) *)
Theorem X10_sanity_check_sound (sched : gmap string DT.aware)
    (schedule_data : list dict) :
  sanity_check sched schedule_data = Ok [] ->
  Forall (fun row =>
            truthy (get row "Date and Time" (VStr "")) = false
            \/ exists rd, get_reveal_date_for_debate sched row = Ok (Some rd))
         schedule_data.
Proof.
  induction schedule_data as [|row rest IH]; [constructor|].
  cbn [sanity_check].
  destruct (check_row sched row) as [here|e] eqn:Hrow; [|done].
  cbn [mbind result_bind].
  destruct (sanity_check sched rest) as [more|e] eqn:Hrest; [|done].
  cbn [mbind result_bind]. intros [= Happ].
  apply app_eq_nil in Happ as [-> ->].
  constructor; [by apply check_row_clean|by apply IH].
Qed.

Lemma X10_sanity_check_sound_witness :
  Forall (fun row =>
            truthy (get row "Date and Time" (VStr "")) = false
            \/ exists rd, get_reveal_date_for_debate REVEAL_SCHEDULE row = Ok (Some rd))
         [Csv.read_row SCHEDULE_HEADERS ["1"; "2025-09-26 10:10"];
          Csv.read_row SCHEDULE_HEADERS ["2"; ""];
          Csv.read_row SCHEDULE_HEADERS ["3"; "2025-11-21"]].
Proof.
  apply (X10_sanity_check_sound REVEAL_SCHEDULE). reflexivity.
Defined.

(** ** The sign-up page and the instructor panel *)

Lemma dt_ge_lt a b : dt_ge a b = negb (DT.lt a b).
Proof. unfold dt_ge, DT.lt. apply Z.leb_antisym. Qed.

Lemma label_slots_withheld debate (f : Z -> cell) idx :
  (forall i, withheld (f i)) ->
  Forall withheld (slot_label debate f <$> idx).
Proof.
  intros Hf. induction idx as [|i idx IH]; [constructor|].
  rewrite fmap_cons. constructor; [|done].
  unfold slot_label. destruct (truthy _); [apply Hf|by left].
Qed.

(** X11. A debate is offered on the sign-up page exactly when it has
    no reveal instant or its reveal instant lies ahead; the schedule
    view then raises nothing and shows no position for any of its
    slots, whatever the submissions are. *)
Theorem X11_eligible_means_withheld (sched : gmap string DT.aware) (now : DT.aware)
    (item : found_debate) :
  (eligible sched now item = Ok true
   <-> get_reveal_date_for_debate sched (debate_details item) = Ok None
       \/ exists rd, get_reveal_date_for_debate sched (debate_details item) = Ok (Some rd)
                     /\ DT.lt now rd = true)
  /\ (eligible sched now item = Ok true ->
      exists labels,
        (forall subs, label_debate sched now subs (debate_details item) = Ok labels)
        /\ Forall withheld labels).
Proof.
  assert (eligible sched now item = Ok true
          <-> get_reveal_date_for_debate sched (debate_details item) = Ok None
              \/ exists rd, get_reveal_date_for_debate sched (debate_details item)
                              = Ok (Some rd) /\ DT.lt now rd = true) as Hiff.
  { unfold eligible.
    destruct (get_reveal_date_for_debate sched (debate_details item)) as [[rd|]|e];
      cbn [mbind result_bind].
    - rewrite dt_ge_lt, negb_involutive. split.
      + intros [= H]. right. by exists rd.
      + intros [|(rd' & [= <-] & ->)]; done.
    - split; [by left|done].
    - split; [done|]. by intros [|(rd' & ? & _)]. }
  split; [done|]. intros H. apply Hiff in H as [Hnone|(rd & Hrd & Hlt)].
  - eexists. split.
    + intros subs. by apply label_debate_config_error.
    + apply label_slots_withheld. intros _. right. by left.
  - eexists. split.
    + intros subs. by apply label_debate_pending.
    + apply label_slots_withheld. intros _. right. right. by exists rd.
Qed.

Lemma any_submission_wf rows debate dv d v :
  forallb wf_record rows = true ->
  getitem debate "Debate" = Ok dv ->
  Py.int dv = Ok d ->
  any_submission (submission_of <$> rows) debate v
  = Ok (match List.filter (value_key d v) rows with [] => false | _ => true end).
Proof.
  intros Hwf Hdv Hd. induction rows as [|r rows IH]; [done|].
  cbn [forallb] in Hwf. apply andb_true_iff in Hwf as [Hr Hrows].
  destruct (wf_record_shape r Hr) as (a & b & c & e & f & z & -> & Hz).
  cbn [fmap list_fmap any_submission submission_of].
  change (list_fmap _ _ submission_of rows) with (submission_of <$> rows).
  destruct (getitem_submission (VStr a) (VStr b) (VStr c) (VStr e) f) as (-> & -> & _).
  cbn [mbind result_bind Py.int]. rewrite Hz, Hdv. cbn [mbind result_bind].
  rewrite Hd. cbn [mbind result_bind List.filter].
  assert (value_key d v [a; b; c; e; f]
          = (z =? d) && py_eq (VStr b) v) as ->.
  { unfold value_key, row_has_key. destruct v as [|s|n].
    - by rewrite andb_false_r.
    - by rewrite Hz, py_eq_str.
    - by rewrite andb_false_r. }
  destruct (z =? d); cbn [andb mbind result_bind]; [|by apply IH].
  destruct (py_eq (VStr b) v); [done|by apply IH].
Qed.

(** X12. The instructor panel and the schedule view agree. On a store
    state, for a debate whose number is an integer and whose reveal
    instant has passed, and a slot with a team and a stakeholder: when
    the store holds no record of the slot's key the slot is listed as
    missing and the view shows "Not Submitted"; otherwise the slot is
    not listed and the view shows a stored position. *)
Theorem X12_missing_agrees_with_view (now rd : DT.aware) (fs : files) (debate : dict)
    (dv : value) (d i : Z) (s : string) :
  wf_store fs = true ->
  DT.lt now rd = false ->
  getitem debate "Debate" = Ok dv ->
  Py.int dv = Ok d ->
  truthy (get debate (slot_key "Team" i) VNone) = true ->
  get debate (slot_key "Stakeholder" i) VNone = VStr s ->
  s <> "" ->
  match List.filter (has_key d s) (fst (load_submissions fs)) with
  | [] =>
      missing_slot (fst (load_submissions fs)) debate i
        = Ok [mkMissing debate (get debate (slot_key "Team" i) VNone) (VStr s)]
      /\ position_label now (fst (load_submissions fs)) debate (Some rd) i
         = Ok (Text (VStr "Not Submitted"))
  | sub :: _ =>
      missing_slot (fst (load_submissions fs)) debate i = Ok []
      /\ exists p, getitem sub "Position" = Ok (VStr p)
                   /\ position_label now (fst (load_submissions fs)) debate (Some rd) i
                      = Ok (Text (VStr p))
  end.
Proof.
  intros Hwf Hlt Hdv Hd Hteam Hst Hs.
  destruct (wf_store_rows fs Hwf) as [Hrows _].
  rewrite load_submissions_wf by done. cbn [fst].
  rewrite filter_has_key by done.
  rewrite (position_label_revealed now _ debate rd dv d i Hrows Hdv Hd Hlt).
  unfold missing_slot, slot_label, revealed_label. rewrite Hteam, Hst.
  assert (truthy (VStr s) = true) as -> by by destruct s.
  rewrite (any_submission_wf _ debate dv d _ Hrows Hdv Hd).
  change (value_key d (VStr s)) with (row_has_key d s).
  pose proof (proj1 (forallb_forall wf_record _) Hrows) as Hall.
  destruct (List.filter (row_has_key d s) (rows_of fs)) as [|r rest] eqn:Hf; [done|].
  assert (In r (rows_of fs)) as Hin.
  { eapply (proj1 (filter_In _ r _)). rewrite Hf. by left. }
  destruct (wf_record_shape r (Hall r Hin)) as (a & b & c & e & f & z & -> & _).
  split; [done|]. by exists e.
Qed.

Lemma X12_missing_agrees_with_view_witness :
  missing_slot (fst (load_submissions ∅)) example_debate 1
    = Ok [mkMissing example_debate (get example_debate (slot_key "Team" 1) VNone)
            (VStr "Government")]
  /\ position_label (localized 2025 9 25 EDT) (fst (load_submissions ∅)) example_debate
       (Some (localized 2025 9 24 EDT)) 1
     = Ok (Text (VStr "Not Submitted")).
Proof.
  refine (X12_missing_agrees_with_view (localized 2025 9 25 EDT)
            (localized 2025 9 24 EDT) ∅ example_debate (VStr "1") 1 1 "Government"
            _ _ _ _ _ _ _); try reflexivity.
  discriminate.
Defined.

Lemma X11_eligible_means_withheld_witness :
  eligible example_reveal (localized 2025 9 22 EDT)
    (mkFound example_debate (VStr "Government")) = Ok true
  /\ exists labels,
       (forall subs,
          label_debate example_reveal (localized 2025 9 22 EDT) subs example_debate
          = Ok labels)
       /\ Forall withheld labels.
Proof.
  split; [reflexivity|].
  exact (proj2 (X11_eligible_means_withheld example_reveal (localized 2025 9 22 EDT)
                  (mkFound example_debate (VStr "Government"))) eq_refl).
Defined.

(** X13. While every debate of the schedule is still offered for
    sign-up, the instructor panel lists no missing submission, whatever
    the store holds. *)
Theorem X13_no_missing_while_open (sched : gmap string DT.aware) (now : DT.aware)
    (subs schedule_data : list dict) :
  Forall (fun d => eligible sched now (mkFound d VNone) = Ok true) schedule_data ->
  missing_submissions sched now subs schedule_data = Ok [].
Proof.
  induction 1 as [|d rest Hd _ IH]; [done|].
  cbn [missing_submissions]. unfold eligible in Hd. cbn [debate_details] in Hd.
  destruct (get_reveal_date_for_debate sched d) as [rd|e]; [|done].
  cbn [mbind result_bind] in *.
  destruct (match rd with Some r => dt_ge now r | None => false end); [done|].
  cbn [mbind result_bind]. by rewrite IH.
Qed.

Lemma X13_no_missing_while_open_witness :
  missing_submissions example_reveal (localized 2025 9 22 EDT)
    [new_submission (VStr "1") (VStr "Industry") (VStr "Team B") (VStr "For") "09:00"]
    [example_debate] = Ok [].
Proof.
  apply X13_no_missing_while_open. repeat constructor.
Defined.

(** X14. The override of the instructor panel clears the slot it is
    made for and no other: after [save_submission] for the key of a
    slot, on a store state, the slot is not listed as missing, and a
    slot of another key is listed exactly as before. *)
Theorem X14_override_clears_slot (fs : files) (debate : dict) (dv : value)
    (d i : Z) (s t p w : string) :
  wf_store fs = true ->
  getitem debate "Debate" = Ok dv ->
  Py.int dv = Ok d ->
  get debate (slot_key "Stakeholder" i) VNone = VStr s ->
  missing_slot
    (fst (load_submissions
            (fst (save_submission (VInt d) (VStr s) (VStr t) (VStr p) w fs))))
    debate i = Ok []
  /\ (forall debate' dv' d' j s',
        getitem debate' "Debate" = Ok dv' ->
        Py.int dv' = Ok d' ->
        get debate' (slot_key "Stakeholder" j) VNone = VStr s' ->
        (d =? d') && String.eqb s s' = false ->
        missing_slot
          (fst (load_submissions
                  (fst (save_submission (VInt d) (VStr s) (VStr t) (VStr p) w fs))))
          debate' j
        = missing_slot (fst (load_submissions fs)) debate' j).
Proof.
  intros Hwf Hdv Hd Hst.
  destruct (wf_store_rows fs Hwf) as [Hrows _].
  rewrite save_submission_wf by done. cbn [fst].
  assert (forallb wf_record (upsert_rows d s t p w (rows_of fs)) = true)
    as Hrows' by by apply upsert_rows_wf.
  rewrite (load_submissions_wf (<[_ := _]> fs)) by by apply wf_store_insert.
  rewrite load_submissions_wf by done. cbn [fst]. rewrite rows_of_insert.
  split.
  - unfold missing_slot. destruct (truthy (get debate (slot_key "Team" i) VNone)); [|done].
    rewrite Hst. destruct (truthy (VStr s)); [|done].
    rewrite (any_submission_wf _ debate dv d _ Hrows' Hdv Hd).
    change (value_key d (VStr s)) with (row_has_key d s).
    rewrite filter_upsert_same.
    by destruct (List.filter (row_has_key d s) (rows_of fs)).
  - intros debate' dv' d' j s' Hdv' Hd' Hst' Hne. unfold missing_slot.
    destruct (truthy (get debate' (slot_key "Team" j) VNone)); [|done].
    rewrite Hst'. destruct (truthy (VStr s')); [|done].
    rewrite (any_submission_wf _ debate' dv' d' _ Hrows' Hdv' Hd').
    rewrite (any_submission_wf _ debate' dv' d' _ Hrows Hdv' Hd').
    change (value_key d' (VStr s')) with (row_has_key d' s').
    by rewrite filter_upsert_other.
Qed.

Lemma X14_override_clears_slot_witness :
  missing_slot
    (fst (load_submissions
            (fst (save_submission (VInt 1) (VStr "Government") (VStr "Team A")
                    (VStr "Against") "2025-09-25 08:00:00 EDT" ∅))))
    example_debate 1 = Ok [].
Proof.
  refine (proj1 (X14_override_clears_slot ∅ example_debate (VStr "1") 1 1
                   "Government" "Team A" "Against" "2025-09-25 08:00:00 EDT" _ _ _ _));
    reflexivity.
Defined.

(** ** The schedule reader *)

Lemma zip_cells_lookup fieldnames row (d : gmap string value) k :
  k ∈ fieldnames \/ is_Some (d !! k) ->
  is_Some (Csv.zip_cells fieldnames row d !! k).
Proof.
  revert row d. induction fieldnames as [|n ns IH]; intros row d; cbn [Csv.zip_cells].
  - intros [H|H]; [by apply elem_of_nil in H|done].
  - intros H. destruct row as [|f fs]; apply IH;
      (destruct H as [H|H];
       [apply elem_of_cons in H as [->|H];
        [right; rewrite lookup_insert_eq; by eexists|by left]
       |right; rewrite lookup_insert; case_decide; [by eexists|done]]).
Qed.

(** X15. [load_schedule] stops the run exactly when the schedule file
    is missing or holds no record after its header (blank lines
    apart). When it returns, it returns one row
    for every record that is not blank, and every row has an entry,
    text or [None], for every column name of the header: reading a
    column that the header names never raises [KeyError]. *)
Theorem X15_load_schedule_rows (fs : files) :
  match fs !! SCHEDULE_FILE with
  | None => load_schedule fs = Raise StopException
  | Some [] => load_schedule fs = Raise StopException
  | Some (header :: records) =>
      match List.filter (fun r => negb (Csv.blank r)) records with
      | [] => load_schedule fs = Raise StopException
      | kept =>
          load_schedule fs = Ok (Csv.read_row header <$> kept)
          /\ forall row k,
               In row (Csv.read_row header <$> kept) -> k ∈ header ->
               exists v, getitem row k = Ok v /\ not_int v = true
      end
  end.
Proof.
  unfold load_schedule, load_data_from_csv.
  destruct (fs !! SCHEDULE_FILE) as [[|header records]|]; cbn [fst]; try done.
  unfold Csv.DictReader.
  destruct (List.filter (fun r => negb (Csv.blank r)) records) as [|r kept]; [done|].
  split; [done|]. intros row k Hin Hk.
  apply list_elem_of_In, list_elem_of_fmap in Hin as (rec & -> & _).
  destruct (zip_cells_lookup header rec ∅ k (or_introl Hk)) as [v Hv].
  exists v. unfold getitem, Csv.read_row. cbn [cells]. rewrite Hv. split; [done|].
  eapply zip_cells_not_int; [|done]. intros v'. by rewrite lookup_empty.
Qed.

(** ** The HTML table *)

Lemma count_char_app c (a b : string) :
  count_char c (a +:+ b) = (count_char c a + count_char c b)%nat.
Proof.
  induction a as [|x a IH]; [done|].
  rewrite append_cons. cbn [count_char]. rewrite IH. lia.
Qed.

Lemma count_replace_char c x by' s :
  count_char c (Html.replace_char x by' s)
  = ((if Ascii.eqb c x then 0 else count_char c s)
     + count_char x s * count_char c by')%nat.
Proof.
  induction s as [|y s IH]; cbn [Html.replace_char count_char].
  - by destruct (Ascii.eqb c x).
  - destruct (Ascii.eqb_spec y x) as [->|Hyx].
    + rewrite count_char_app, IH.
      destruct (Ascii.eqb_spec x c) as [->|Hxc].
      * rewrite Ascii.eqb_refl. lia.
      * destruct (Ascii.eqb_spec c x) as [->|_]; [done|]. lia.
    + cbn [count_char]. rewrite IH.
      destruct (Ascii.eqb_spec y c) as [->|Hyc].
      * destruct (Ascii.eqb_spec c x) as [->|_]; [done|]. lia.
      * destruct (Ascii.eqb c x); lia.
Qed.

(** The escaped text holds none of the characters that open or close
    a tag or an attribute value. *)
Lemma escape_clean s :
  count_char "<" (Html.escape s) = 0%nat
  /\ count_char ">" (Html.escape s) = 0%nat
  /\ count_char Html.dquote (Html.escape s) = 0%nat
  /\ count_char "'" (Html.escape s) = 0%nat.
Proof.
  unfold Html.escape. repeat split; rewrite !count_replace_char; cbn; lia.
Qed.

Lemma count_html_head c headers :
  (forall s, count_char c (Html.escape s) = 0%nat) ->
  count_char c (html_head headers)
  = (length headers * (count_char c "<th>" + count_char c "</th>"))%nat.
Proof.
  intros Hc. induction headers as [|h rest IH]; [done|].
  cbn [html_head length]. rewrite !count_char_app, Hc, IH. lia.
Qed.

Lemma count_html_cells c row headers :
  (forall s, count_char c (Html.escape s) = 0%nat) ->
  count_char c (html_cells row headers)
  = (length headers * (count_char c "<td>" + count_char c "</td>"))%nat.
Proof.
  intros Hc. induction headers as [|h rest IH]; [done|].
  cbn [html_cells length]. rewrite !count_char_app, Hc, IH. lia.
Qed.

Lemma count_html_rows c data headers :
  (forall s, count_char c (Html.escape s) = 0%nat) ->
  count_char c (html_rows data headers)
  = (length data * (count_char c "<tr>" + count_char c "</tr>"
                    + length headers * (count_char c "<td>" + count_char c "</td>")))%nat.
Proof.
  intros Hc. induction data as [|row rest IH]; [done|].
  cbn [html_rows length]. rewrite !count_char_app, count_html_cells, IH by done. lia.
Qed.

(** X16. The cells of the table that [generate_html_table] builds
    cannot add markup: whatever the headers and the rows hold, the
    page has no quote character, and its numbers of [<] and of [>] are
    those of the tags of the template, ten for the frame, two for every
    header and, for every row, two and two for every column. *)
Theorem X16_table_markup_is_fixed (data : list dict) (headers : list string) :
  count_char "<" (generate_html_table data headers)
    = (10 + 2 * length headers + length data * (2 + 2 * length headers))%nat
  /\ count_char ">" (generate_html_table data headers)
     = (10 + 2 * length headers + length data * (2 + 2 * length headers))%nat
  /\ count_char Html.dquote (generate_html_table data headers) = 0%nat
  /\ count_char "'" (generate_html_table data headers) = 0%nat.
Proof.
  unfold generate_html_table.
  repeat split; rewrite !count_char_app, count_html_head, count_html_rows
    by (intros s; apply escape_clean); cbn; lia.
Qed.

(** ** The sign-up page *)

Lemma eligible_debates_sound sched now assigned kept item :
  eligible_debates sched now assigned = Ok kept ->
  In item kept ->
  In item assigned /\ eligible sched now item = Ok true.
Proof.
  revert kept. induction assigned as [|a assigned IH]; intros kept.
  - intros [= <-]. done.
  - cbn [eligible_debates].
    destruct (eligible sched now a) as [keep|e] eqn:Ha; [|done].
    cbn [mbind result_bind].
    destruct (eligible_debates sched now assigned) as [more|e]; [|done].
    cbn [mbind result_bind]. intros [= <-] Hin.
    destruct keep.
    + destruct Hin as [<-|Hin]; [split; [by left|done]|].
      destruct (IH more eq_refl Hin). split; [by right|done].
    + destruct (IH more eq_refl Hin). split; [by right|done].
Qed.

Lemma debate_options_sound items acc options :
  debate_options items acc = Ok options ->
  forall k v,
    options !! k = Some v ->
    (In v items /\ option_label v = Ok k) \/ acc !! k = Some v.
Proof.
  revert acc. induction items as [|item items IH]; intros acc.
  - intros [= <-] k v Hk. by right.
  - cbn [debate_options].
    destruct (option_label item) as [label|e] eqn:Hlabel; [|done].
    cbn [mbind result_bind]. intros Hopts k v Hk.
    destruct (IH _ Hopts k v Hk) as [[Hin Hlab]|Hacc].
    + left. split; [by right|done].
    + rewrite lookup_insert in Hacc. case_decide as Heq.
      * injection Hacc as <-. subst k. left. split; [by left|done].
      * by right.
Qed.

(** X17. A submission through the sign-up page is always for a debate
    of the session's assigned debates that is still offered (it has no
    reveal instant, or the reveal instant lies ahead), under the option
    that was selected, and with the stakeholder role of that
    assignment: when the run saves, it has called [save_submission]
    with the debate number and the role of such an item. *)
Theorem X17_sign_up_only_while_open (sched : gmap string DT.aware) (now : DT.aware)
    (assigned : list found_debate) (team_name selected position stamp : string)
    (fs fs' : files) :
  sign_up_submit sched now assigned team_name (Some selected) position stamp fs
    = (fs', Ok true) ->
  exists item dv d,
    In item assigned
    /\ eligible sched now item = Ok true
    /\ option_label item = Ok selected
    /\ getitem (debate_details item) "Debate" = Ok dv
    /\ Py.int dv = Ok d
    /\ save_submission (VInt d) (stakeholder_role item) (VStr team_name)
         (VStr position) stamp (snd (load_submissions fs)) = (fs', Ok true).
Proof.
  unfold sign_up_submit.
  destruct (load_schedule fs) as [schedule_data|e]; [|done].
  destruct (load_submissions fs) as [subs fs1] eqn:Hload. cbn [snd].
  destruct assigned as [|a assigned]; [done|].
  destruct (eligible_debates sched now (a :: assigned)) as [kept|e] eqn:Hel; [|done].
  destruct kept as [|k kept]; [done|].
  destruct (debate_options (k :: kept) ∅) as [options|e] eqn:Hopts; [|done].
  destruct selected as [|c selected]; [done|].
  destruct (options !! String c selected) as [item|] eqn:Hsel; [|done].
  destruct (find_submission subs (debate_details item) (stakeholder_role item))
    as [existing|e]; [|done].
  cbn [mbind result_bind].
  destruct (match existing with Some sub => _ | None => _ end) as [idx|e]; [|done].
  cbn [mbind result_bind].
  destruct (getitem (debate_details item) "Debate") as [dv|e] eqn:Hdv; [|done].
  cbn [mbind result_bind].
  destruct (Py.int dv) as [d|e] eqn:Hd; [|done].
  intros Hsave.
  destruct (debate_options_sound _ _ _ Hopts _ _ Hsel) as [[Hin Hlab]|Hacc];
    [|by rewrite lookup_empty in Hacc].
  destruct (eligible_debates_sound _ _ _ _ _ Hel Hin) as [Hin' Helig].
  by exists item, dv, d.
Qed.

Lemma X17_sign_up_only_while_open_witness :
  exists item dv d,
    In item [mkFound example_debate (VStr "Government")]
    /\ eligible example_reveal (localized 2025 9 22 EDT) item = Ok true
    /\ option_label item = Ok "1: A resolution..."
    /\ getitem (debate_details item) "Debate" = Ok dv
    /\ Py.int dv = Ok d
    /\ save_submission (VInt d) (stakeholder_role item) (VStr "team a")
         (VStr "For") "2025-09-22 00:00:00 EDT" (snd (load_submissions example_files))
       = (fst (sign_up_submit example_reveal (localized 2025 9 22 EDT)
                 [mkFound example_debate (VStr "Government")] "team a"
                 (Some "1: A resolution...") "For" "2025-09-22 00:00:00 EDT"
                 example_files),
          Ok true).
Proof.
  apply (X17_sign_up_only_while_open example_reveal (localized 2025 9 22 EDT)
           [mkFound example_debate (VStr "Government")] "team a"
           "1: A resolution..." "For" "2025-09-22 00:00:00 EDT" example_files).
  reflexivity.
Defined.





(** X19. With no submission in the store the schedule view raises
    nothing for a debate whose date can be read, whatever its other
    cells hold: a slot without a team gets the dash, and a slot with a
    team "CONFIG ERROR" without a reveal instant, "Reveals <Mon DD>"
    before it and "Not Submitted" from it on. The identifier of the
    debate is not read. *)
Theorem X19_view_of_empty_store (sched : gmap string DT.aware) (now : DT.aware)
    (debate : dict) (reveal_date : option DT.aware) :
  get_reveal_date_for_debate sched debate = Ok reveal_date ->
  label_debate sched now [] debate
  = Ok (slot_label debate
          (fun _ => match reveal_date with
                    | None => Text (VStr "CONFIG ERROR")
                    | Some rd =>
                        if DT.lt now rd then pending_label rd
                        else Text (VStr "Not Submitted")
                    end) <$> slots).
Proof.
  intros Hrd. unfold label_debate. rewrite Hrd. cbn [mbind result_bind].
  apply label_slots_map. apply Forall_forall. intros i _.
  unfold position_label, slot_label, pending_label.
  destruct (truthy _); [|done]. destruct reveal_date as [rd|]; [|done].
  by destruct (DT.lt now rd).
Qed.

Lemma X19_view_of_empty_store_witness :
  label_debate REVEAL_SCHEDULE (localized 2025 9 25 EDT) []
    (Csv.read_row SCHEDULE_HEADERS
       ["abc"; "2025-09-26 10:10"; "A resolution"; "Government"; "Team A"])
  = Ok [Text (VStr "Not Submitted"); Dash; Dash; Dash].
Proof.
  refine (X19_view_of_empty_store REVEAL_SCHEDULE (localized 2025 9 25 EDT)
            (Csv.read_row SCHEDULE_HEADERS
               ["abc"; "2025-09-26 10:10"; "A resolution"; "Government"; "Team A"])
            (Some (localized 2025 9 24 EDT)) _).
  reflexivity.
Defined.
